(** * OTBN simulator control state (hw/ip/otbn/dv/otbnsim/sim/state.py)

    A shallow embedding of [OTBNState]: the start/stop FSM, the
    stage-then-commit discipline of its resources, and the per-cycle
    [step]/[commit] sequencing.  Python integers are unbounded, so they
    are [Z]; a method that can fail an [assert] returns a [result]. *)

From Stdlib Require Import ZArith Lia List Bool String.
From stdpp Require Import base option gmap strings.
Import ListNotations.

Local Open Scope string_scope.
Local Open Scope Z_scope.

(** ** Outcome of a method that contains [assert] statements *)

Inductive result (A : Type) : Type :=
| Ok (a : A)
| AssertionError.
Arguments Ok {A} a.
Arguments AssertionError {A}.

#[global] Instance result_ret : MRet result := fun A a => Ok a.

#[global] Instance result_bind : MBind result := fun A B k r =>
  match r with
  | Ok a => k a
  | AssertionError => AssertionError
  end.

(** [assert b] *)
Definition assert_ (b : bool) : result unit :=
  if b then Ok tt else AssertionError.

(** ** Enumerations of state.py and constants.py *)

Inductive FsmState : Type :=
| PRE_WIPE | WIPING | IDLE | PRE_EXEC | EXEC | MEM_SEC_WIPE | LOCKED.

(** The integer codes of the [IntEnum]. *)
Definition FsmState_value (f : FsmState) : Z :=
  match f with
  | PRE_WIPE => 0
  | WIPING => 1
  | IDLE => 2
  | PRE_EXEC => 3
  | EXEC => 4
  | MEM_SEC_WIPE => 10
  | LOCKED => 255
  end.

Inductive InitSecWipeState : Type :=
| NOT_DONE | IN_PROGRESS | DONE.

(** Modelled from the spec: [LcTx] of constants.py, which is not part of
    the sources at hand.  The lifecycle escalation signal is "a tri-state
    external input (Off/On/other)". *)
Inductive LcTx : Type :=
| LcTx_OFF | LcTx_ON | LcTx_OTHER.

#[global] Instance FsmState_eq_dec : EqDecision FsmState.
Proof. solve_decision. Defined.
#[global] Instance InitSecWipeState_eq_dec : EqDecision InitSecWipeState.
Proof. solve_decision. Defined.
#[global] Instance LcTx_eq_dec : EqDecision LcTx.
Proof. solve_decision. Defined.

(** [x in [a, b, ...]] on enumeration members. *)
Definition member {A : Type} `{EqDecision A} (x : A) (l : list A) : bool :=
  existsb (fun y => bool_decide (x = y)) l.

(** The number of cycles spent per round of a secure wipe. *)
Definition _WIPE_CYCLES : Z := 68.

(** ** The storage contract *)

(** Modelled from the spec: the register files, memory, loop stack and
    flags live in modules that are not part of the sources at hand; state.py
    consumes them through the staged-storage contract only.  A resource has
    a last-committed content and at most one staged content: [record] stages
    a write that later reads of the same cycle see, [commit] makes the staged
    content permanent and clears the staging, [abort] discards the staged
    content and reverts to the last-committed one. *)
Record Staged (A : Type) : Type := mkStaged {
  committed : A;
  pending : option A
}.
Arguments mkStaged {A} _ _.
Arguments committed {A} _.
Arguments pending {A} _.

Definition s_read {A} (r : Staged A) : A :=
  default (committed r) (pending r).

Definition s_record {A} (v : A) (r : Staged A) : Staged A :=
  mkStaged (committed r) (Some v).

Definition s_commit {A} (r : Staged A) : Staged A :=
  mkStaged (s_read r) None.

Definition s_abort {A} (r : Staged A) : Staged A :=
  mkStaged (committed r) None.

(** The capability every stateful resource implements. *)
Class StagedStorage (R : Type) : Type := {
  st_commit : R -> R;
  st_abort : R -> R
}.

#[global] Instance Staged_storage (A : Type) : StagedStorage (Staged A) :=
  {| st_commit := s_commit; st_abort := s_abort |}.

(** ** External registers (ext_regs.py) *)

(** Modelled from the spec: an external register is a staged integer; its
    externally visible value is the committed one. *)
Abbreviation RGReg := (Staged Z).

#[global] Instance RGReg_inhabited : Inhabited RGReg :=
  populate (mkStaged 0 None).

(** [RGReg.write(value, from_hw)]: stage [value].  Every write of state.py
    is a hardware write ([from_hw = True]). *)
Definition RGReg_write (value : Z) (from_hw : bool) (r : RGReg) : RGReg :=
  s_record value r.

(** [RGReg.set_bits(value)]: stage the next value with [value] or-ed in. *)
Definition RGReg_set_bits (value : Z) (r : RGReg) : RGReg :=
  s_record (Z.lor (s_read r) value) r.

(** Modelled from the spec: [OTBNExtRegs] is the register file [regs],
    indexed by register name, together with the EDN client of the RND feed
    ("delivered through the external-register file with poison/forget/retry
    semantics").  A name that was never written reads as a register in its
    reset state. *)
Record OTBNExtRegs (C : Type) : Type := mkExtRegs {
  regs : gmap string RGReg;
  _rnd_client : C
}.
Arguments mkExtRegs {C} _ _.
Arguments regs {C} _.
Arguments _rnd_client {C} _.

Section ExtRegs.
Context {C : Type}.

Definition get_reg (reg_name : string) (e : OTBNExtRegs C) : RGReg :=
  regs e !!! reg_name.

Definition ext_write (reg_name : string) (value : Z) (from_hw : bool)
    (e : OTBNExtRegs C) : OTBNExtRegs C :=
  mkExtRegs (<[reg_name := RGReg_write value from_hw (get_reg reg_name e)]> (regs e))
            (_rnd_client e).

Definition ext_set_bits (reg_name : string) (value : Z)
    (e : OTBNExtRegs C) : OTBNExtRegs C :=
  mkExtRegs (<[reg_name := RGReg_set_bits value (get_reg reg_name e)]> (regs e))
            (_rnd_client e).

(** [self.ext_regs.regs[reg_name].commit()] *)
Definition ext_commit_reg (reg_name : string) (e : OTBNExtRegs C) : OTBNExtRegs C :=
  mkExtRegs (<[reg_name := s_commit (get_reg reg_name e)]> (regs e))
            (_rnd_client e).

(** The instruction counter goes up by one, as a staged write. *)
Definition increment_insn_cnt (e : OTBNExtRegs C) : OTBNExtRegs C :=
  ext_write "INSN_CNT" (committed (get_reg "INSN_CNT" e) + 1) true e.

Definition ext_commit (e : OTBNExtRegs C) : OTBNExtRegs C :=
  mkExtRegs (s_commit <$> regs e) (_rnd_client e).

Definition ext_abort (e : OTBNExtRegs C) : OTBNExtRegs C :=
  mkExtRegs (s_abort <$> regs e) (_rnd_client e).

Definition with_rnd_client (f : C -> C) (e : OTBNExtRegs C) : OTBNExtRegs C :=
  mkExtRegs (regs e) (f (_rnd_client e)).
End ExtRegs.

#[global] Instance OTBNExtRegs_storage (C : Type) : StagedStorage (OTBNExtRegs C) :=
  {| st_commit := ext_commit; st_abort := ext_abort |}.

(** ** Wide special registers and CSRs (wsr.py, csr.py) *)

(** Modelled from the spec: the WSR file holds the URND register, whose
    seed is four 64-bit words and which [commit] also commits on its own,
    and the remaining special registers. *)
Record WSRFile (W : Type) : Type := mkWSRFile {
  URND : Staged (list Z);
  wsr_others : Staged W
}.
Arguments mkWSRFile {W} _ _.
Arguments URND {W} _.
Arguments wsr_others {W} _.

(** [self.wsrs.URND.set_seed(w64s)] *)
Definition URND_set_seed {W} (w64s : list Z) (w : WSRFile W) : WSRFile W :=
  mkWSRFile (s_record w64s (URND w)) (wsr_others w).

(** [self.wsrs.URND.commit()] *)
Definition URND_commit {W} (w : WSRFile W) : WSRFile W :=
  mkWSRFile (s_commit (URND w)) (wsr_others w).

#[global] Instance WSRFile_storage (W : Type) : StagedStorage (WSRFile W) :=
  {| st_commit := fun w => mkWSRFile (s_commit (URND w)) (s_commit (wsr_others w));
     st_abort := fun w => mkWSRFile (s_abort (URND w)) (s_abort (wsr_others w)) |}.

(** Modelled from the spec: of the CSR file, state.py touches the flag
    groups, a storage-contract resource. *)
Record CSRFile (F : Type) : Type := mkCSRFile {
  flags : Staged F
}.
Arguments mkCSRFile {F} _.
Arguments flags {F} _.

(** ** The collaborators of state.py *)

(** The classes behind the resources are consumed at their interface: the
    contents they hold, their constructors, the methods state.py calls on
    them that are not part of the storage contract, and the constants of
    constants.py. *)
Record Externals : Type := mkExternals {
  GprFile : Type;
  WdrFile : Type;
  DmemCells : Type;
  LoopFrames : Type;
  WsrVals : Type;
  FlagGroups : Type;
  EdnClient : Type;
  (* constructors *)
  GPRs_new : Staged GprFile;
  RegFile_new : Staged WdrFile;
  Dmem_new : Staged DmemCells;
  LoopStack_new : Staged LoopFrames;
  WSRFile_new : WSRFile WsrVals;
  CSRFile_new : CSRFile FlagGroups;
  EdnClient_new : EdnClient;
  OTBNExtRegs_new : OTBNExtRegs EdnClient;
  imem_size_bytes : Z;
  (* EdnClient *)
  edn_request : EdnClient -> EdnClient;
  edn_step : EdnClient -> EdnClient;
  edn_poison : EdnClient -> EdnClient;
  edn_forget : EdnClient -> EdnClient;
  edn_cdc_complete : EdnClient -> (option Z * bool * bool * bool) * EdnClient;
  (* GPRs *)
  gprs_post_insn : Staged GprFile -> Staged GprFile;
  gprs_err_bits : Staged GprFile -> Z;
  gprs_empty_call_stack : Staged GprFile -> Staged GprFile;
  (* LoopStack *)
  loop_stack_step : Staged LoopFrames -> Z -> gmap Z Z -> option Z * Staged LoopFrames;
  loop_stack_err_bits : Staged LoopFrames -> Z;
  (* WSRFile *)
  wsrs_on_start : WSRFile WsrVals -> WSRFile WsrVals;
  (* OTBNExtRegs *)
  ext_regs_step : OTBNExtRegs EdnClient -> OTBNExtRegs EdnClient;
  (* constants.py *)
  ErrBits_BAD_INSN_ADDR : Z;
  Status_BUSY_EXECUTE : Z;
  Status_LOCKED : Z
}.

(** ** OTBNState *)

Record OTBNState (E : Externals) : Type := mkOTBNState {
  gprs : Staged (GprFile E);
  wdrs : Staged (WdrFile E);
  ext_regs : OTBNExtRegs (EdnClient E);
  wsrs : WSRFile (WsrVals E);
  csrs : CSRFile (FlagGroups E);
  pc : Z;
  _pc_next_override : option Z;
  imem_size : Z;
  dmem : Staged (DmemCells E);
  _fsm_state : FsmState;
  _next_fsm_state : FsmState;
  _init_sec_wipe_state : InitSecWipeState;
  wipe_rounds_to_do : Z;
  wipe_rounds_done : Z;
  loop_stack : Staged (LoopFrames E);
  _err_bits : Z;
  pending_halt : bool;
  _urnd_client : EdnClient E;
  _time_to_imem_invalidation : option Z;
  invalidated_imem : bool;
  wipe_cycles : Z;
  lock_after_wipe : bool;
  injected_err_bits : Z;
  lock_immediately : bool;
  time_to_insn_cnt_zero : option Z;
  software_errs_fatal : bool;
  cycles_in_this_state : Z;
  rma_req : LcTx;
  has_state_to_wipe : bool;
  delayed_lock : bool;
  edn_seen_running : bool
}.

Arguments mkOTBNState {E}.
Arguments gprs {E} _.
Arguments wdrs {E} _.
Arguments ext_regs {E} _.
Arguments wsrs {E} _.
Arguments csrs {E} _.
Arguments pc {E} _.
Arguments _pc_next_override {E} _.
Arguments imem_size {E} _.
Arguments dmem {E} _.
Arguments _fsm_state {E} _.
Arguments _next_fsm_state {E} _.
Arguments _init_sec_wipe_state {E} _.
Arguments wipe_rounds_to_do {E} _.
Arguments wipe_rounds_done {E} _.
Arguments loop_stack {E} _.
Arguments _err_bits {E} _.
Arguments pending_halt {E} _.
Arguments _urnd_client {E} _.
Arguments _time_to_imem_invalidation {E} _.
Arguments invalidated_imem {E} _.
Arguments wipe_cycles {E} _.
Arguments lock_after_wipe {E} _.
Arguments injected_err_bits {E} _.
Arguments lock_immediately {E} _.
Arguments time_to_insn_cnt_zero {E} _.
Arguments software_errs_fatal {E} _.
Arguments cycles_in_this_state {E} _.
Arguments rma_req {E} _.
Arguments has_state_to_wipe {E} _.
Arguments delayed_lock {E} _.
Arguments edn_seen_running {E} _.

(** Assignment to one attribute of the object: [self.f = v]. *)
Section Setters.
Context {E : Externals}.

Definition set_gprs (v : Staged (GprFile E)) (s : OTBNState E) : OTBNState E :=
  mkOTBNState v (wdrs s) (ext_regs s) (wsrs s) (csrs s) (pc s)
    (_pc_next_override s) (imem_size s) (dmem s) (_fsm_state s)
    (_next_fsm_state s) (_init_sec_wipe_state s) (wipe_rounds_to_do s)
    (wipe_rounds_done s) (loop_stack s) (_err_bits s) (pending_halt s)
    (_urnd_client s) (_time_to_imem_invalidation s) (invalidated_imem s)
    (wipe_cycles s) (lock_after_wipe s) (injected_err_bits s)
    (lock_immediately s) (time_to_insn_cnt_zero s) (software_errs_fatal s)
    (cycles_in_this_state s) (rma_req s) (has_state_to_wipe s)
    (delayed_lock s) (edn_seen_running s).

Definition set_wdrs (v : Staged (WdrFile E)) (s : OTBNState E) : OTBNState E :=
  mkOTBNState (gprs s) v (ext_regs s) (wsrs s) (csrs s) (pc s)
    (_pc_next_override s) (imem_size s) (dmem s) (_fsm_state s)
    (_next_fsm_state s) (_init_sec_wipe_state s) (wipe_rounds_to_do s)
    (wipe_rounds_done s) (loop_stack s) (_err_bits s) (pending_halt s)
    (_urnd_client s) (_time_to_imem_invalidation s) (invalidated_imem s)
    (wipe_cycles s) (lock_after_wipe s) (injected_err_bits s)
    (lock_immediately s) (time_to_insn_cnt_zero s) (software_errs_fatal s)
    (cycles_in_this_state s) (rma_req s) (has_state_to_wipe s)
    (delayed_lock s) (edn_seen_running s).

Definition set_ext_regs (v : OTBNExtRegs (EdnClient E)) (s : OTBNState E) : OTBNState E :=
  mkOTBNState (gprs s) (wdrs s) v (wsrs s) (csrs s) (pc s)
    (_pc_next_override s) (imem_size s) (dmem s) (_fsm_state s)
    (_next_fsm_state s) (_init_sec_wipe_state s) (wipe_rounds_to_do s)
    (wipe_rounds_done s) (loop_stack s) (_err_bits s) (pending_halt s)
    (_urnd_client s) (_time_to_imem_invalidation s) (invalidated_imem s)
    (wipe_cycles s) (lock_after_wipe s) (injected_err_bits s)
    (lock_immediately s) (time_to_insn_cnt_zero s) (software_errs_fatal s)
    (cycles_in_this_state s) (rma_req s) (has_state_to_wipe s)
    (delayed_lock s) (edn_seen_running s).

Definition set_wsrs (v : WSRFile (WsrVals E)) (s : OTBNState E) : OTBNState E :=
  mkOTBNState (gprs s) (wdrs s) (ext_regs s) v (csrs s) (pc s)
    (_pc_next_override s) (imem_size s) (dmem s) (_fsm_state s)
    (_next_fsm_state s) (_init_sec_wipe_state s) (wipe_rounds_to_do s)
    (wipe_rounds_done s) (loop_stack s) (_err_bits s) (pending_halt s)
    (_urnd_client s) (_time_to_imem_invalidation s) (invalidated_imem s)
    (wipe_cycles s) (lock_after_wipe s) (injected_err_bits s)
    (lock_immediately s) (time_to_insn_cnt_zero s) (software_errs_fatal s)
    (cycles_in_this_state s) (rma_req s) (has_state_to_wipe s)
    (delayed_lock s) (edn_seen_running s).

Definition set_csrs (v : CSRFile (FlagGroups E)) (s : OTBNState E) : OTBNState E :=
  mkOTBNState (gprs s) (wdrs s) (ext_regs s) (wsrs s) v (pc s)
    (_pc_next_override s) (imem_size s) (dmem s) (_fsm_state s)
    (_next_fsm_state s) (_init_sec_wipe_state s) (wipe_rounds_to_do s)
    (wipe_rounds_done s) (loop_stack s) (_err_bits s) (pending_halt s)
    (_urnd_client s) (_time_to_imem_invalidation s) (invalidated_imem s)
    (wipe_cycles s) (lock_after_wipe s) (injected_err_bits s)
    (lock_immediately s) (time_to_insn_cnt_zero s) (software_errs_fatal s)
    (cycles_in_this_state s) (rma_req s) (has_state_to_wipe s)
    (delayed_lock s) (edn_seen_running s).

Definition set_pc (v : Z) (s : OTBNState E) : OTBNState E :=
  mkOTBNState (gprs s) (wdrs s) (ext_regs s) (wsrs s) (csrs s) v
    (_pc_next_override s) (imem_size s) (dmem s) (_fsm_state s)
    (_next_fsm_state s) (_init_sec_wipe_state s) (wipe_rounds_to_do s)
    (wipe_rounds_done s) (loop_stack s) (_err_bits s) (pending_halt s)
    (_urnd_client s) (_time_to_imem_invalidation s) (invalidated_imem s)
    (wipe_cycles s) (lock_after_wipe s) (injected_err_bits s)
    (lock_immediately s) (time_to_insn_cnt_zero s) (software_errs_fatal s)
    (cycles_in_this_state s) (rma_req s) (has_state_to_wipe s)
    (delayed_lock s) (edn_seen_running s).

Definition set__pc_next_override (v : option Z) (s : OTBNState E) : OTBNState E :=
  mkOTBNState (gprs s) (wdrs s) (ext_regs s) (wsrs s) (csrs s) (pc s) v
    (imem_size s) (dmem s) (_fsm_state s) (_next_fsm_state s)
    (_init_sec_wipe_state s) (wipe_rounds_to_do s) (wipe_rounds_done s)
    (loop_stack s) (_err_bits s) (pending_halt s) (_urnd_client s)
    (_time_to_imem_invalidation s) (invalidated_imem s) (wipe_cycles s)
    (lock_after_wipe s) (injected_err_bits s) (lock_immediately s)
    (time_to_insn_cnt_zero s) (software_errs_fatal s)
    (cycles_in_this_state s) (rma_req s) (has_state_to_wipe s)
    (delayed_lock s) (edn_seen_running s).

Definition set_dmem (v : Staged (DmemCells E)) (s : OTBNState E) : OTBNState E :=
  mkOTBNState (gprs s) (wdrs s) (ext_regs s) (wsrs s) (csrs s) (pc s)
    (_pc_next_override s) (imem_size s) v (_fsm_state s) (_next_fsm_state
    s) (_init_sec_wipe_state s) (wipe_rounds_to_do s) (wipe_rounds_done s)
    (loop_stack s) (_err_bits s) (pending_halt s) (_urnd_client s)
    (_time_to_imem_invalidation s) (invalidated_imem s) (wipe_cycles s)
    (lock_after_wipe s) (injected_err_bits s) (lock_immediately s)
    (time_to_insn_cnt_zero s) (software_errs_fatal s)
    (cycles_in_this_state s) (rma_req s) (has_state_to_wipe s)
    (delayed_lock s) (edn_seen_running s).

Definition set__fsm_state (v : FsmState) (s : OTBNState E) : OTBNState E :=
  mkOTBNState (gprs s) (wdrs s) (ext_regs s) (wsrs s) (csrs s) (pc s)
    (_pc_next_override s) (imem_size s) (dmem s) v (_next_fsm_state s)
    (_init_sec_wipe_state s) (wipe_rounds_to_do s) (wipe_rounds_done s)
    (loop_stack s) (_err_bits s) (pending_halt s) (_urnd_client s)
    (_time_to_imem_invalidation s) (invalidated_imem s) (wipe_cycles s)
    (lock_after_wipe s) (injected_err_bits s) (lock_immediately s)
    (time_to_insn_cnt_zero s) (software_errs_fatal s)
    (cycles_in_this_state s) (rma_req s) (has_state_to_wipe s)
    (delayed_lock s) (edn_seen_running s).

Definition set__next_fsm_state (v : FsmState) (s : OTBNState E) : OTBNState E :=
  mkOTBNState (gprs s) (wdrs s) (ext_regs s) (wsrs s) (csrs s) (pc s)
    (_pc_next_override s) (imem_size s) (dmem s) (_fsm_state s) v
    (_init_sec_wipe_state s) (wipe_rounds_to_do s) (wipe_rounds_done s)
    (loop_stack s) (_err_bits s) (pending_halt s) (_urnd_client s)
    (_time_to_imem_invalidation s) (invalidated_imem s) (wipe_cycles s)
    (lock_after_wipe s) (injected_err_bits s) (lock_immediately s)
    (time_to_insn_cnt_zero s) (software_errs_fatal s)
    (cycles_in_this_state s) (rma_req s) (has_state_to_wipe s)
    (delayed_lock s) (edn_seen_running s).

Definition set__init_sec_wipe_state (v : InitSecWipeState) (s : OTBNState E) : OTBNState E :=
  mkOTBNState (gprs s) (wdrs s) (ext_regs s) (wsrs s) (csrs s) (pc s)
    (_pc_next_override s) (imem_size s) (dmem s) (_fsm_state s)
    (_next_fsm_state s) v (wipe_rounds_to_do s) (wipe_rounds_done s)
    (loop_stack s) (_err_bits s) (pending_halt s) (_urnd_client s)
    (_time_to_imem_invalidation s) (invalidated_imem s) (wipe_cycles s)
    (lock_after_wipe s) (injected_err_bits s) (lock_immediately s)
    (time_to_insn_cnt_zero s) (software_errs_fatal s)
    (cycles_in_this_state s) (rma_req s) (has_state_to_wipe s)
    (delayed_lock s) (edn_seen_running s).

Definition set_wipe_rounds_to_do (v : Z) (s : OTBNState E) : OTBNState E :=
  mkOTBNState (gprs s) (wdrs s) (ext_regs s) (wsrs s) (csrs s) (pc s)
    (_pc_next_override s) (imem_size s) (dmem s) (_fsm_state s)
    (_next_fsm_state s) (_init_sec_wipe_state s) v (wipe_rounds_done s)
    (loop_stack s) (_err_bits s) (pending_halt s) (_urnd_client s)
    (_time_to_imem_invalidation s) (invalidated_imem s) (wipe_cycles s)
    (lock_after_wipe s) (injected_err_bits s) (lock_immediately s)
    (time_to_insn_cnt_zero s) (software_errs_fatal s)
    (cycles_in_this_state s) (rma_req s) (has_state_to_wipe s)
    (delayed_lock s) (edn_seen_running s).

Definition set_wipe_rounds_done (v : Z) (s : OTBNState E) : OTBNState E :=
  mkOTBNState (gprs s) (wdrs s) (ext_regs s) (wsrs s) (csrs s) (pc s)
    (_pc_next_override s) (imem_size s) (dmem s) (_fsm_state s)
    (_next_fsm_state s) (_init_sec_wipe_state s) (wipe_rounds_to_do s) v
    (loop_stack s) (_err_bits s) (pending_halt s) (_urnd_client s)
    (_time_to_imem_invalidation s) (invalidated_imem s) (wipe_cycles s)
    (lock_after_wipe s) (injected_err_bits s) (lock_immediately s)
    (time_to_insn_cnt_zero s) (software_errs_fatal s)
    (cycles_in_this_state s) (rma_req s) (has_state_to_wipe s)
    (delayed_lock s) (edn_seen_running s).

Definition set_loop_stack (v : Staged (LoopFrames E)) (s : OTBNState E) : OTBNState E :=
  mkOTBNState (gprs s) (wdrs s) (ext_regs s) (wsrs s) (csrs s) (pc s)
    (_pc_next_override s) (imem_size s) (dmem s) (_fsm_state s)
    (_next_fsm_state s) (_init_sec_wipe_state s) (wipe_rounds_to_do s)
    (wipe_rounds_done s) v (_err_bits s) (pending_halt s) (_urnd_client s)
    (_time_to_imem_invalidation s) (invalidated_imem s) (wipe_cycles s)
    (lock_after_wipe s) (injected_err_bits s) (lock_immediately s)
    (time_to_insn_cnt_zero s) (software_errs_fatal s)
    (cycles_in_this_state s) (rma_req s) (has_state_to_wipe s)
    (delayed_lock s) (edn_seen_running s).

Definition set__err_bits (v : Z) (s : OTBNState E) : OTBNState E :=
  mkOTBNState (gprs s) (wdrs s) (ext_regs s) (wsrs s) (csrs s) (pc s)
    (_pc_next_override s) (imem_size s) (dmem s) (_fsm_state s)
    (_next_fsm_state s) (_init_sec_wipe_state s) (wipe_rounds_to_do s)
    (wipe_rounds_done s) (loop_stack s) v (pending_halt s) (_urnd_client
    s) (_time_to_imem_invalidation s) (invalidated_imem s) (wipe_cycles s)
    (lock_after_wipe s) (injected_err_bits s) (lock_immediately s)
    (time_to_insn_cnt_zero s) (software_errs_fatal s)
    (cycles_in_this_state s) (rma_req s) (has_state_to_wipe s)
    (delayed_lock s) (edn_seen_running s).

Definition set_pending_halt (v : bool) (s : OTBNState E) : OTBNState E :=
  mkOTBNState (gprs s) (wdrs s) (ext_regs s) (wsrs s) (csrs s) (pc s)
    (_pc_next_override s) (imem_size s) (dmem s) (_fsm_state s)
    (_next_fsm_state s) (_init_sec_wipe_state s) (wipe_rounds_to_do s)
    (wipe_rounds_done s) (loop_stack s) (_err_bits s) v (_urnd_client s)
    (_time_to_imem_invalidation s) (invalidated_imem s) (wipe_cycles s)
    (lock_after_wipe s) (injected_err_bits s) (lock_immediately s)
    (time_to_insn_cnt_zero s) (software_errs_fatal s)
    (cycles_in_this_state s) (rma_req s) (has_state_to_wipe s)
    (delayed_lock s) (edn_seen_running s).

Definition set__urnd_client (v : EdnClient E) (s : OTBNState E) : OTBNState E :=
  mkOTBNState (gprs s) (wdrs s) (ext_regs s) (wsrs s) (csrs s) (pc s)
    (_pc_next_override s) (imem_size s) (dmem s) (_fsm_state s)
    (_next_fsm_state s) (_init_sec_wipe_state s) (wipe_rounds_to_do s)
    (wipe_rounds_done s) (loop_stack s) (_err_bits s) (pending_halt s) v
    (_time_to_imem_invalidation s) (invalidated_imem s) (wipe_cycles s)
    (lock_after_wipe s) (injected_err_bits s) (lock_immediately s)
    (time_to_insn_cnt_zero s) (software_errs_fatal s)
    (cycles_in_this_state s) (rma_req s) (has_state_to_wipe s)
    (delayed_lock s) (edn_seen_running s).

Definition set__time_to_imem_invalidation (v : option Z) (s : OTBNState E) : OTBNState E :=
  mkOTBNState (gprs s) (wdrs s) (ext_regs s) (wsrs s) (csrs s) (pc s)
    (_pc_next_override s) (imem_size s) (dmem s) (_fsm_state s)
    (_next_fsm_state s) (_init_sec_wipe_state s) (wipe_rounds_to_do s)
    (wipe_rounds_done s) (loop_stack s) (_err_bits s) (pending_halt s)
    (_urnd_client s) v (invalidated_imem s) (wipe_cycles s)
    (lock_after_wipe s) (injected_err_bits s) (lock_immediately s)
    (time_to_insn_cnt_zero s) (software_errs_fatal s)
    (cycles_in_this_state s) (rma_req s) (has_state_to_wipe s)
    (delayed_lock s) (edn_seen_running s).

Definition set_invalidated_imem (v : bool) (s : OTBNState E) : OTBNState E :=
  mkOTBNState (gprs s) (wdrs s) (ext_regs s) (wsrs s) (csrs s) (pc s)
    (_pc_next_override s) (imem_size s) (dmem s) (_fsm_state s)
    (_next_fsm_state s) (_init_sec_wipe_state s) (wipe_rounds_to_do s)
    (wipe_rounds_done s) (loop_stack s) (_err_bits s) (pending_halt s)
    (_urnd_client s) (_time_to_imem_invalidation s) v (wipe_cycles s)
    (lock_after_wipe s) (injected_err_bits s) (lock_immediately s)
    (time_to_insn_cnt_zero s) (software_errs_fatal s)
    (cycles_in_this_state s) (rma_req s) (has_state_to_wipe s)
    (delayed_lock s) (edn_seen_running s).

Definition set_wipe_cycles (v : Z) (s : OTBNState E) : OTBNState E :=
  mkOTBNState (gprs s) (wdrs s) (ext_regs s) (wsrs s) (csrs s) (pc s)
    (_pc_next_override s) (imem_size s) (dmem s) (_fsm_state s)
    (_next_fsm_state s) (_init_sec_wipe_state s) (wipe_rounds_to_do s)
    (wipe_rounds_done s) (loop_stack s) (_err_bits s) (pending_halt s)
    (_urnd_client s) (_time_to_imem_invalidation s) (invalidated_imem s) v
    (lock_after_wipe s) (injected_err_bits s) (lock_immediately s)
    (time_to_insn_cnt_zero s) (software_errs_fatal s)
    (cycles_in_this_state s) (rma_req s) (has_state_to_wipe s)
    (delayed_lock s) (edn_seen_running s).

Definition set_lock_after_wipe (v : bool) (s : OTBNState E) : OTBNState E :=
  mkOTBNState (gprs s) (wdrs s) (ext_regs s) (wsrs s) (csrs s) (pc s)
    (_pc_next_override s) (imem_size s) (dmem s) (_fsm_state s)
    (_next_fsm_state s) (_init_sec_wipe_state s) (wipe_rounds_to_do s)
    (wipe_rounds_done s) (loop_stack s) (_err_bits s) (pending_halt s)
    (_urnd_client s) (_time_to_imem_invalidation s) (invalidated_imem s)
    (wipe_cycles s) v (injected_err_bits s) (lock_immediately s)
    (time_to_insn_cnt_zero s) (software_errs_fatal s)
    (cycles_in_this_state s) (rma_req s) (has_state_to_wipe s)
    (delayed_lock s) (edn_seen_running s).

Definition set_injected_err_bits (v : Z) (s : OTBNState E) : OTBNState E :=
  mkOTBNState (gprs s) (wdrs s) (ext_regs s) (wsrs s) (csrs s) (pc s)
    (_pc_next_override s) (imem_size s) (dmem s) (_fsm_state s)
    (_next_fsm_state s) (_init_sec_wipe_state s) (wipe_rounds_to_do s)
    (wipe_rounds_done s) (loop_stack s) (_err_bits s) (pending_halt s)
    (_urnd_client s) (_time_to_imem_invalidation s) (invalidated_imem s)
    (wipe_cycles s) (lock_after_wipe s) v (lock_immediately s)
    (time_to_insn_cnt_zero s) (software_errs_fatal s)
    (cycles_in_this_state s) (rma_req s) (has_state_to_wipe s)
    (delayed_lock s) (edn_seen_running s).

Definition set_lock_immediately (v : bool) (s : OTBNState E) : OTBNState E :=
  mkOTBNState (gprs s) (wdrs s) (ext_regs s) (wsrs s) (csrs s) (pc s)
    (_pc_next_override s) (imem_size s) (dmem s) (_fsm_state s)
    (_next_fsm_state s) (_init_sec_wipe_state s) (wipe_rounds_to_do s)
    (wipe_rounds_done s) (loop_stack s) (_err_bits s) (pending_halt s)
    (_urnd_client s) (_time_to_imem_invalidation s) (invalidated_imem s)
    (wipe_cycles s) (lock_after_wipe s) (injected_err_bits s) v
    (time_to_insn_cnt_zero s) (software_errs_fatal s)
    (cycles_in_this_state s) (rma_req s) (has_state_to_wipe s)
    (delayed_lock s) (edn_seen_running s).

Definition set_software_errs_fatal (v : bool) (s : OTBNState E) : OTBNState E :=
  mkOTBNState (gprs s) (wdrs s) (ext_regs s) (wsrs s) (csrs s) (pc s)
    (_pc_next_override s) (imem_size s) (dmem s) (_fsm_state s)
    (_next_fsm_state s) (_init_sec_wipe_state s) (wipe_rounds_to_do s)
    (wipe_rounds_done s) (loop_stack s) (_err_bits s) (pending_halt s)
    (_urnd_client s) (_time_to_imem_invalidation s) (invalidated_imem s)
    (wipe_cycles s) (lock_after_wipe s) (injected_err_bits s)
    (lock_immediately s) (time_to_insn_cnt_zero s) v (cycles_in_this_state
    s) (rma_req s) (has_state_to_wipe s) (delayed_lock s)
    (edn_seen_running s).

Definition set_cycles_in_this_state (v : Z) (s : OTBNState E) : OTBNState E :=
  mkOTBNState (gprs s) (wdrs s) (ext_regs s) (wsrs s) (csrs s) (pc s)
    (_pc_next_override s) (imem_size s) (dmem s) (_fsm_state s)
    (_next_fsm_state s) (_init_sec_wipe_state s) (wipe_rounds_to_do s)
    (wipe_rounds_done s) (loop_stack s) (_err_bits s) (pending_halt s)
    (_urnd_client s) (_time_to_imem_invalidation s) (invalidated_imem s)
    (wipe_cycles s) (lock_after_wipe s) (injected_err_bits s)
    (lock_immediately s) (time_to_insn_cnt_zero s) (software_errs_fatal s)
    v (rma_req s) (has_state_to_wipe s) (delayed_lock s) (edn_seen_running
    s).

Definition set_rma_req (v : LcTx) (s : OTBNState E) : OTBNState E :=
  mkOTBNState (gprs s) (wdrs s) (ext_regs s) (wsrs s) (csrs s) (pc s)
    (_pc_next_override s) (imem_size s) (dmem s) (_fsm_state s)
    (_next_fsm_state s) (_init_sec_wipe_state s) (wipe_rounds_to_do s)
    (wipe_rounds_done s) (loop_stack s) (_err_bits s) (pending_halt s)
    (_urnd_client s) (_time_to_imem_invalidation s) (invalidated_imem s)
    (wipe_cycles s) (lock_after_wipe s) (injected_err_bits s)
    (lock_immediately s) (time_to_insn_cnt_zero s) (software_errs_fatal s)
    (cycles_in_this_state s) v (has_state_to_wipe s) (delayed_lock s)
    (edn_seen_running s).

Definition set_has_state_to_wipe (v : bool) (s : OTBNState E) : OTBNState E :=
  mkOTBNState (gprs s) (wdrs s) (ext_regs s) (wsrs s) (csrs s) (pc s)
    (_pc_next_override s) (imem_size s) (dmem s) (_fsm_state s)
    (_next_fsm_state s) (_init_sec_wipe_state s) (wipe_rounds_to_do s)
    (wipe_rounds_done s) (loop_stack s) (_err_bits s) (pending_halt s)
    (_urnd_client s) (_time_to_imem_invalidation s) (invalidated_imem s)
    (wipe_cycles s) (lock_after_wipe s) (injected_err_bits s)
    (lock_immediately s) (time_to_insn_cnt_zero s) (software_errs_fatal s)
    (cycles_in_this_state s) (rma_req s) v (delayed_lock s)
    (edn_seen_running s).

Definition set_edn_seen_running (v : bool) (s : OTBNState E) : OTBNState E :=
  mkOTBNState (gprs s) (wdrs s) (ext_regs s) (wsrs s) (csrs s) (pc s)
    (_pc_next_override s) (imem_size s) (dmem s) (_fsm_state s)
    (_next_fsm_state s) (_init_sec_wipe_state s) (wipe_rounds_to_do s)
    (wipe_rounds_done s) (loop_stack s) (_err_bits s) (pending_halt s)
    (_urnd_client s) (_time_to_imem_invalidation s) (invalidated_imem s)
    (wipe_cycles s) (lock_after_wipe s) (injected_err_bits s)
    (lock_immediately s) (time_to_insn_cnt_zero s) (software_errs_fatal s)
    (cycles_in_this_state s) (rma_req s) (has_state_to_wipe s)
    (delayed_lock s) v.

End Setters.

(** ** The methods of OTBNState *)

(** The expression [stop] binds to its local [should_lock], as a function
    of the three attributes it reads. *)
Definition should_lock (err_bits : Z) (software_errs_fatal : bool) (rma_req : LcTx)
    : bool :=
  negb (Z.shiftr err_bits 16 =? 0)
  || negb (Z.land (Z.shiftr err_bits 10) 1 =? 0)
  || (negb (err_bits =? 0) && software_errs_fatal)
  || bool_decide (rma_req = LcTx_ON).

(** The resources [commit] commits, named as the attributes are. *)
Inductive Resource : Type :=
| R_ext_regs | R_URND | R_gprs | R_dmem | R_loop_stack | R_wsrs | R_flags | R_wdrs.

(** The two calls the driver makes each cycle. *)
Inductive DriverCall : Type :=
| Step (handle_injected_error : bool)
| Commit (sim_stalled : bool).

Section Methods.
Context {E : Externals}.

Local Abbreviation State := (OTBNState E).

(** [__init__] *)
Definition OTBNState_new : State :=
  {| gprs := GPRs_new E;
     wdrs := RegFile_new E;
     ext_regs := OTBNExtRegs_new E;
     wsrs := WSRFile_new E;
     csrs := CSRFile_new E;
     pc := 0;
     _pc_next_override := None;
     imem_size := imem_size_bytes E;
     dmem := Dmem_new E;
     _fsm_state := PRE_WIPE;
     _next_fsm_state := PRE_WIPE;
     _init_sec_wipe_state := NOT_DONE;
     wipe_rounds_to_do := 2;
     wipe_rounds_done := 0;
     loop_stack := LoopStack_new E;
     _err_bits := 0;
     pending_halt := false;
     _urnd_client := EdnClient_new E;
     _time_to_imem_invalidation := None;
     invalidated_imem := false;
     wipe_cycles := -1;
     lock_after_wipe := false;
     injected_err_bits := 0;
     lock_immediately := false;
     time_to_insn_cnt_zero := None;
     software_errs_fatal := false;
     cycles_in_this_state := 0;
     rma_req := LcTx_OFF;
     has_state_to_wipe := false;
     delayed_lock := false;
     edn_seen_running := false |}.

Definition get_next_pc (s : State) : Z :=
  match _pc_next_override s with
  | Some next_pc => next_pc
  | None => pc s + 4
  end.

Definition is_pc_valid (pc_ : Z) (s : State) : result bool :=
  assert_ (0 <=? pc_);;
  if negb (Z.land pc_ 3 =? 0) then mret false
  else if pc_ >=? imem_size s then mret false
  else mret true.

Definition set_next_pc (next_pc : Z) (s : State) : result State :=
  valid ← is_pc_valid next_pc s;
  assert_ valid;;
  mret (set__pc_next_override (Some next_pc) s).

Definition urnd_completed (s : State) : result State :=
  let '(w256, retry, _, _, client) := edn_cdc_complete E (_urnd_client s) in
  let s := set__urnd_client client s in
  match w256 with
  | None => AssertionError
  | Some w256 =>
      assert_ (negb retry);;
      let w64s :=
        map (fun i => Z.land (Z.shiftr w256 (64 * i)) (Z.shiftl 1 64 - 1))
            [0; 1; 2; 3] in
      let s := set_edn_seen_running true s in
      mret (set_wsrs (URND_set_seed w64s (wsrs s)) s)
  end.

Definition start_init_sec_wipe (s : State) : State :=
  let s := set__init_sec_wipe_state IN_PROGRESS s in
  set__urnd_client (edn_request E (_urnd_client s)) s.

Definition init_sec_wipe_is_running (s : State) : bool :=
  bool_decide (_init_sec_wipe_state s = IN_PROGRESS).

Definition init_sec_wipe_is_done (s : State) : bool :=
  bool_decide (_init_sec_wipe_state s = DONE).

Definition complete_init_sec_wipe (s : State) : State :=
  set__init_sec_wipe_state DONE s.

Definition loop_step (loop_warps : gmap Z Z) (s : State) : result State :=
  let '(back_pc, stack) := loop_stack_step E (loop_stack s) (pc s) loop_warps in
  let s := set_loop_stack stack s in
  match back_pc with
  | Some back_pc => set_next_pc back_pc s
  | None => mret s
  end.

Definition executing (s : State) : bool :=
  negb (member (_fsm_state s) [IDLE; LOCKED; MEM_SEC_WIPE]).

Definition wiping (s : State) : bool :=
  bool_decide (_fsm_state s = WIPING).

Definition stop_at_end_of_cycle (err_bits : Z) (s : State) : State :=
  let s := set__err_bits (Z.lor (_err_bits s) err_bits) s in
  set_pending_halt true s.

Definition take_injected_err_bits (s : State) : State :=
  if negb (injected_err_bits s =? 0) then
    let s := stop_at_end_of_cycle (injected_err_bits s) s in
    set_injected_err_bits 0 s
  else s.

Definition step (handle_injected_error : bool) (s : State) : State :=
  let s := if handle_injected_error then take_injected_err_bits s else s in
  let s := set_ext_regs (ext_regs_step E (ext_regs s)) s in
  set__urnd_client (edn_step E (_urnd_client s)) s.

(** One call [self.<resource>.commit()]. *)
Definition commit_resource (r : Resource) (s : State) : State :=
  match r with
  | R_ext_regs => set_ext_regs (st_commit (ext_regs s)) s
  | R_URND => set_wsrs (URND_commit (wsrs s)) s
  | R_gprs => set_gprs (st_commit (gprs s)) s
  | R_dmem => set_dmem (st_commit (dmem s)) s
  | R_loop_stack => set_loop_stack (st_commit (loop_stack s)) s
  | R_wsrs => set_wsrs (st_commit (wsrs s)) s
  | R_flags => set_csrs (mkCSRFile (st_commit (flags (csrs s)))) s
  | R_wdrs => set_wdrs (st_commit (wdrs s)) s
  end.

(** The same call, entered in the list of the commits made so far. *)
Definition do_commit (r : Resource) (t : State * list Resource)
    : State * list Resource :=
  (commit_resource r t.1, (t.2 ++ [r])%list).

(** [commit], together with the resources it committed, in call order. *)
Definition commit_calls (sim_stalled : bool) (s : State) : State * list Resource :=
  let s :=
    match _time_to_imem_invalidation s with
    | Some t =>
        let s := set__time_to_imem_invalidation (Some (t - 1)) s in
        if t - 1 =? 0 then
          let s := set_invalidated_imem true s in
          set__time_to_imem_invalidation None s
        else s
    | None => s
    end in
  let old_state := _fsm_state s in
  let s := set__fsm_state (_next_fsm_state s) s in
  let s :=
    set_cycles_in_this_state
      (if bool_decide (_fsm_state s = old_state)
       then cycles_in_this_state s + 1
       else 0)
      s in
  let t := (s, []) in
  let t := do_commit R_ext_regs t in
  let t := do_commit R_URND t in
  if negb (member old_state [EXEC; WIPING]) then t
  else
    let t := do_commit R_gprs t in
    let t := do_commit R_dmem t in
    let t := do_commit R_loop_stack t in
    let t := do_commit R_wsrs t in
    let t := do_commit R_flags t in
    let t := do_commit R_wdrs t in
    if negb sim_stalled then
      let s := t.1 in
      let s := set_pc (get_next_pc s) s in
      (set__pc_next_override None s, t.2)
    else t.

Definition commit (sim_stalled : bool) (s : State) : State :=
  (commit_calls sim_stalled s).1.

Definition _abort (s : State) : State :=
  let s := set_gprs (st_abort (gprs s)) s in
  let s := set__pc_next_override None s in
  let s := set_dmem (st_abort (dmem s)) s in
  let s := set_loop_stack (st_abort (loop_stack s)) s in
  let s := set_ext_regs (st_abort (ext_regs s)) s in
  let s := set_wsrs (st_abort (wsrs s)) s in
  let s := set_csrs (mkCSRFile (st_abort (flags (csrs s)))) s in
  set_wdrs (st_abort (wdrs s)) s.

Definition start (s : State) : State :=
  let s := set_ext_regs (ext_write "STATUS" (Status_BUSY_EXECUTE E) true (ext_regs s)) s in
  let s := set_pending_halt false s in
  let s := set__err_bits 0 s in
  let s := set__fsm_state PRE_EXEC s in
  let s := set__next_fsm_state PRE_EXEC s in
  let s := set_has_state_to_wipe true s in
  let s := set_pc 0 s in
  let s := set_csrs (CSRFile_new E) s in
  let s := set_wsrs (wsrs_on_start E (wsrs s)) s in
  let s := set_loop_stack (LoopStack_new E) s in
  let s := set_gprs (gprs_empty_call_stack E (gprs s)) s in
  let s := set_ext_regs (with_rnd_client (edn_poison E) (ext_regs s)) s in
  set__urnd_client (edn_request E (_urnd_client s)) s.

Definition set_fsm_state (new_state : FsmState) (s : State) : State :=
  let wiping_next := bool_decide (new_state = WIPING) in
  let s := if wiping_next then set_wipe_cycles _WIPE_CYCLES s else s in
  set__next_fsm_state new_state s.

Definition stop_should_lock (s : State) : bool :=
  should_lock (_err_bits s) (software_errs_fatal s) (rma_req s).

Definition stop (s : State) : result State :=
  let insn_failed :=
    negb (_err_bits s =? 0) && bool_decide (_fsm_state s = EXEC) in
  let s := if insn_failed then _abort s else s in
  let s := set_ext_regs (ext_set_bits "INTR_STATE" (Z.shiftl 1 0) (ext_regs s)) s in
  let should_lock_ := stop_should_lock s in
  let s := set_ext_regs (ext_write "ERR_BITS" (_err_bits s) true (ext_regs s)) s in
  let s := set_pending_halt false s in
  s ← (if lock_immediately s then
         assert_ should_lock_;;
         let s := set_fsm_state LOCKED s in
         mret (set_ext_regs (ext_write "STATUS" (Status_LOCKED E) true (ext_regs s)) s)
       else if bool_decide (_fsm_state s = EXEC) then
         let s := set_ext_regs (ext_write "STOP_PC" (pc s) true (ext_regs s)) s in
         let s := set_ext_regs (ext_write "WIPE_START" 1 true (ext_regs s)) s in
         let s := set_ext_regs (ext_commit_reg "WIPE_START" (ext_regs s)) s in
         let s := set_fsm_state PRE_WIPE s in
         let s := set_lock_after_wipe should_lock_ s in
         mret (set_wipe_rounds_done 0 s)
       else if member (_fsm_state s) [PRE_WIPE; WIPING] then
         assert_ should_lock_;;
         mret (set_lock_after_wipe true s)
       else if member (_init_sec_wipe_state s) [IN_PROGRESS] then
         assert_ should_lock_;;
         mret (set_pending_halt true s)
       else if bool_decide (_init_sec_wipe_state s = DONE) then
         assert_ should_lock_;;
         let s := set__next_fsm_state LOCKED s in
         let next_status := Status_LOCKED E in
         mret (set_ext_regs (ext_write "STATUS" next_status true (ext_regs s)) s)
       else mret s);
  mret (set_ext_regs (with_rnd_client (edn_forget E) (ext_regs s)) s).

(** The branches of [stop] that contain [assert should_lock]. *)
Definition stop_asserts_lock (s : State) : bool :=
  lock_immediately s
  || (negb (bool_decide (_fsm_state s = EXEC))
      && (member (_fsm_state s) [PRE_WIPE; WIPING]
          || member (_init_sec_wipe_state s) [IN_PROGRESS; DONE])).

Definition stop_if_pending_halt (s : State) : result (bool * State) :=
  if pending_halt s then
    s ← stop s;
    mret (true, s)
  else mret (false, s).

(** Lines 500 to 506 of [post_insn]: the counter, the loop stack and the
    error bits the registers and the loop stack report. *)
Definition post_insn_update (loop_warps : gmap Z Z) (s : State) : result State :=
  let s := set_ext_regs (increment_insn_cnt (ext_regs s)) s in
  s ← loop_step loop_warps s;
  let s := set_gprs (gprs_post_insn E (gprs s)) s in
  let s :=
    set__err_bits
      (Z.lor (_err_bits s)
             (Z.lor (gprs_err_bits E (gprs s)) (loop_stack_err_bits E (loop_stack s))))
      s in
  mret (if negb (_err_bits s =? 0) then set_pending_halt true s else s).

(** Lines 517 to 519 of [post_insn]: the check of the next PC. *)
Definition post_insn_check (s : State) : result State :=
  valid ← is_pc_valid (get_next_pc s) s;
  if negb valid && negb (pending_halt s) then
    let s := set__err_bits (Z.lor (_err_bits s) (ErrBits_BAD_INSN_ADDR E)) s in
    mret (set_pending_halt true s)
  else mret s.

Definition post_insn (loop_warps : gmap Z Z) (s : State) : result State :=
  s ← post_insn_update loop_warps s;
  post_insn_check s.

Definition invalidate_imem (s : State) : State :=
  set__time_to_imem_invalidation (Some 2) s.

Definition clear_imem_invalidation (s : State) : State :=
  let s := set__time_to_imem_invalidation None s in
  set_invalidated_imem false s.

(** One driver call, and a sequence of them. *)
Definition drive (c : DriverCall) (s : State) : State :=
  match c with
  | Step b => step b s
  | Commit b => commit b s
  end.

Definition run (cs : list DriverCall) (s : State) : State :=
  fold_left (fun s c => drive c s) cs s.
End Methods.

(** The number of [commit] calls in a sequence of driver calls. *)
Fixpoint commits (cs : list DriverCall) : Z :=
  match cs with
  | [] => 0
  | Commit _ :: cs => 1 + commits cs
  | Step _ :: cs => commits cs
  end.

(** ** A concrete set of collaborators *)

(** The smallest collaborators on which the model runs: register files and
    memory are lists of integers, the EDN client holds the word in flight,
    the methods outside the storage contract do nothing and report no
    error.  The constants are those of the OTBN register map. *)
Definition sample_externals : Externals :=
  {| GprFile := list Z;
     WdrFile := list Z;
     DmemCells := list Z;
     LoopFrames := list (Z * Z * Z);
     WsrVals := list Z;
     FlagGroups := list bool;
     EdnClient := option Z;
     GPRs_new := mkStaged (repeat 0 32%nat) None;
     RegFile_new := mkStaged (repeat 0 32%nat) None;
     Dmem_new := mkStaged [] None;
     LoopStack_new := mkStaged [] None;
     WSRFile_new := mkWSRFile (mkStaged [0; 0; 0; 0] None) (mkStaged [] None);
     CSRFile_new := mkCSRFile (mkStaged [false; false] None);
     EdnClient_new := None;
     OTBNExtRegs_new := mkExtRegs ∅ None;
     imem_size_bytes := 4096;
     edn_request := fun c => c;
     edn_step := fun c => c;
     edn_poison := fun _ => None;
     edn_forget := fun _ => None;
     edn_cdc_complete := fun c => ((c, false, false, false), None);
     gprs_post_insn := fun g => g;
     gprs_err_bits := fun _ => 0;
     gprs_empty_call_stack := fun g => g;
     loop_stack_step := fun l _ _ => (None, l);
     loop_stack_err_bits := fun _ => 0;
     wsrs_on_start := fun w => w;
     ext_regs_step := fun e => e;
     ErrBits_BAD_INSN_ADDR := Z.shiftl 1 1;
     Status_BUSY_EXECUTE := 1;
     Status_LOCKED := 255 |}.

(** A state in the middle of a run: executing at PC 8, with a register
    write, a jump and the instruction-count increment staged. *)
Definition sample_exec : OTBNState sample_externals :=
  let s : OTBNState sample_externals := OTBNState_new in
  let s := set__fsm_state EXEC s in
  let s := set__next_fsm_state EXEC s in
  let s := set__init_sec_wipe_state DONE s in
  let s := set_pc 8 s in
  let s := set_gprs (E := sample_externals) (s_record (repeat 7 32%nat) (gprs s)) s in
  let s := set__pc_next_override (Some 64) s in
  set_ext_regs (increment_insn_cnt (ext_regs s)) s.

(** The same state after an instruction reported a software error. *)
Definition sample_failed : OTBNState sample_externals :=
  set_pending_halt true (set__err_bits 1 sample_exec).

(** The same state with the RMA request asserted. *)
Definition sample_rma : OTBNState sample_externals :=
  set_rma_req LcTx_ON sample_exec.

(** A locked state. *)
Definition sample_locked : OTBNState sample_externals :=
  set__next_fsm_state LOCKED (set__fsm_state LOCKED OTBNState_new).

(** A straight-line instruction at the top of instruction memory. *)
Definition sample_top : OTBNState sample_externals :=
  let s : OTBNState sample_externals := OTBNState_new in
  let s := set__fsm_state EXEC s in
  let s := set__next_fsm_state EXEC s in
  set_pc 4092 s.

(** A state whose URND client holds a completed 256-bit word. *)
Definition sample_urnd : OTBNState sample_externals :=
  set__urnd_client (E := sample_externals)
    (Some (Z.shiftl 4 192 + Z.shiftl 3 128 + Z.shiftl 2 64 + 1)) OTBNState_new.

(** An instruction at the top of the instruction memory that has asked for
    the halt, as ECALL does. *)
Definition sample_ecall : OTBNState sample_externals :=
  stop_at_end_of_cycle 0 sample_top.

(** A fatal error found too late for a wipe. *)
Definition sample_lock_now : OTBNState sample_externals :=
  set_lock_immediately true (set__err_bits (Z.shiftl 1 16) sample_exec).

(** A state in which the instruction memory is already unreadable. *)
Definition sample_invalidated : OTBNState sample_externals :=
  set_invalidated_imem true OTBNState_new.

(** A run that has just been started, after the initial secure wipe, with
    the RMA request asserted before the first commit. *)
Definition sample_started_rma : OTBNState sample_externals :=
  set_rma_req LcTx_ON (set__init_sec_wipe_state DONE (start OTBNState_new)).

(** * Properties *)

(** ** Bit-level facts about the error accumulator *)

Lemma shiftr_nonzero_iff (e n : Z) :
  0 <= n ->
  Z.shiftr e n <> 0 <-> exists i, n <= i /\ Z.testbit e i = true.
Proof.
  intros Hn. split.
  - intros Hne.
    destruct (Z.lt_trichotomy (Z.shiftr e n) 0) as [Hneg | [Hz | Hpos]];
      [ | contradiction | ].
    + set (k := Z.log2 (Z.abs (Z.shiftr e n)) + 1).
      assert (Hk : 0 <= k) by (pose proof (Z.log2_nonneg (Z.abs (Z.shiftr e n))); lia).
      exists (k + n). split; [lia | ].
      rewrite <- Z.shiftr_spec by lia.
      apply (Z.bits_iff_neg (Z.shiftr e n) k); [lia | exact Hneg].
    + exists (Z.log2 (Z.shiftr e n) + n).
      pose proof (Z.log2_nonneg (Z.shiftr e n)).
      split; [lia | ].
      rewrite <- Z.shiftr_spec by lia.
      apply Z.bit_log2. exact Hpos.
  - intros (i & Hi & Hbit) Hz.
    assert (Hb : Z.testbit (Z.shiftr e n) (i - n) = true).
    { rewrite Z.shiftr_spec by lia. replace (i - n + n) with i by lia. exact Hbit. }
    rewrite Hz, Z.bits_0 in Hb. discriminate.
Qed.

Lemma bit_of_shiftr_land_1 (e n : Z) :
  0 <= n ->
  Z.land (Z.shiftr e n) 1 <> 0 <-> Z.testbit e n = true.
Proof.
  intros Hn.
  change 1 with (Z.ones 1).
  rewrite Z.land_ones by lia.
  change (2 ^ 1) with 2.
  rewrite <- Z.bit0_mod, Z.shiftr_spec by lia.
  rewrite Z.add_0_l.
  destruct (Z.testbit e n); simpl; split; congruence || lia.
Qed.

Lemma land_lor_absorb (a b : Z) : Z.land (Z.lor a b) b = b.
Proof.
  apply Z.bits_inj'. intros n _.
  rewrite Z.land_spec, Z.lor_spec.
  destruct (Z.testbit a n), (Z.testbit b n); reflexivity.
Qed.

Lemma land_3_mod_4 (a : Z) : Z.land a 3 = a mod 4.
Proof. change 3 with (Z.ones 2). rewrite Z.land_ones by lia. reflexivity. Qed.

(** ** The quarter-words of a 256-bit word *)

Lemma quarter_word (v i : Z) :
  0 <= i ->
  Z.land (Z.shiftr v (64 * i)) (Z.shiftl 1 64 - 1) = (v / 2 ^ (64 * i)) mod 2 ^ 64.
Proof.
  intros Hi.
  change (Z.shiftl 1 64 - 1) with (Z.ones 64).
  rewrite Z.land_ones by lia.
  rewrite Z.shiftr_div_pow2 by lia.
  reflexivity.
Qed.

Lemma quarter_words_recombine (v : Z) :
  0 <= v < 2 ^ 256 ->
  v = v mod 2 ^ 64
      + 2 ^ 64 * ((v / 2 ^ 64) mod 2 ^ 64)
      + 2 ^ 128 * ((v / 2 ^ 128) mod 2 ^ 64)
      + 2 ^ 192 * ((v / 2 ^ 192) mod 2 ^ 64).
Proof.
  intros [Hlo Hhi].
  assert (H64 : 0 < 2 ^ 64) by (apply Z.pow_pos_nonneg; lia).
  assert (E128 : v / 2 ^ 128 = v / 2 ^ 64 / 2 ^ 64).
  { rewrite Z.div_div by lia. rewrite <- Z.pow_add_r by lia. reflexivity. }
  assert (E192 : v / 2 ^ 192 = v / 2 ^ 64 / 2 ^ 64 / 2 ^ 64).
  { rewrite !Z.div_div by lia. rewrite <- !Z.pow_add_r by lia. reflexivity. }
  assert (Hsmall : (v / 2 ^ 192) mod 2 ^ 64 = v / 2 ^ 192).
  { apply Z.mod_small. split.
    - apply Z.div_pos; [lia | apply Z.pow_pos_nonneg; lia].
    - apply Z.div_lt_upper_bound; [apply Z.pow_pos_nonneg; lia | ].
      rewrite <- Z.pow_add_r by lia. exact Hhi. }
  rewrite Hsmall, E128, E192.
  change (2 ^ 128) with (2 ^ 64 * 2 ^ 64).
  change (2 ^ 192) with (2 ^ 64 * 2 ^ 64 * 2 ^ 64).
  pose proof (Z.div_mod v (2 ^ 64) ltac:(lia)) as D1.
  pose proof (Z.div_mod (v / 2 ^ 64) (2 ^ 64) ltac:(lia)) as D2.
  pose proof (Z.div_mod (v / 2 ^ 64 / 2 ^ 64) (2 ^ 64) ltac:(lia)) as D3.
  set (m := 2 ^ 64) in *.
  set (q1 := v / m) in *. set (r0 := v mod m) in *.
  set (q2 := q1 / m) in *. set (r1 := q1 mod m) in *.
  set (q3 := q2 / m) in *. set (r2 := q2 mod m) in *.
  clearbody m q1 r0 q2 r1 q3 r2.
  rewrite D1, D2, D3. ring.
Qed.

(** ** The storage contract and the external registers *)

Lemma abort_discards {A : Type} (r : Staged A) :
  pending (s_abort r) = None /\ committed (s_abort r) = committed r.
Proof. split; reflexivity. Qed.

Lemma commit_publishes {A : Type} (r : Staged A) :
  pending (s_commit r) = None /\ committed (s_commit r) = s_read r.
Proof. split; reflexivity. Qed.

Section ExtRegsFacts.
Context {C : Type}.
Implicit Types (e : OTBNExtRegs C) (n r : string).

Lemma get_reg_write_eq n v b e :
  get_reg n (ext_write n v b e) = s_record v (get_reg n e).
Proof. unfold get_reg, ext_write; cbn. by rewrite lookup_total_insert_eq. Qed.

Lemma get_reg_write_ne n r v b e :
  n <> r -> get_reg r (ext_write n v b e) = get_reg r e.
Proof. intros. unfold get_reg, ext_write; cbn. by rewrite lookup_total_insert_ne. Qed.

Lemma get_reg_set_bits_eq n v e :
  get_reg n (ext_set_bits n v e) = s_record (Z.lor (s_read (get_reg n e)) v) (get_reg n e).
Proof. unfold get_reg, ext_set_bits; cbn. by rewrite lookup_total_insert_eq. Qed.

Lemma get_reg_set_bits_ne n r v e :
  n <> r -> get_reg r (ext_set_bits n v e) = get_reg r e.
Proof. intros. unfold get_reg, ext_set_bits; cbn. by rewrite lookup_total_insert_ne. Qed.

Lemma get_reg_commit_reg_eq n e :
  get_reg n (ext_commit_reg n e) = s_commit (get_reg n e).
Proof. unfold get_reg, ext_commit_reg; cbn. by rewrite lookup_total_insert_eq. Qed.

Lemma get_reg_commit_reg_ne n r e :
  n <> r -> get_reg r (ext_commit_reg n e) = get_reg r e.
Proof. intros. unfold get_reg, ext_commit_reg; cbn. by rewrite lookup_total_insert_ne. Qed.

Lemma get_reg_abort r e : get_reg r (ext_abort e) = s_abort (get_reg r e).
Proof.
  change (get_reg r (ext_abort e)) with ((s_abort <$> regs e) !!! r).
  unfold get_reg. rewrite !lookup_total_alt, lookup_fmap.
  destruct (regs e !! r); reflexivity.
Qed.

Lemma get_reg_commit r e : get_reg r (ext_commit e) = s_commit (get_reg r e).
Proof.
  change (get_reg r (ext_commit e)) with ((s_commit <$> regs e) !!! r).
  unfold get_reg. rewrite !lookup_total_alt, lookup_fmap.
  destruct (regs e !! r); reflexivity.
Qed.

Lemma get_reg_with_rnd_client (f : C -> C) r e :
  get_reg r (with_rnd_client f e) = get_reg r e.
Proof. reflexivity. Qed.
End ExtRegsFacts.

(** Reads of a register through the writes made to the register file. *)
Ltac regs_simpl :=
  repeat first
    [ rewrite get_reg_with_rnd_client
    | rewrite get_reg_write_eq
    | rewrite get_reg_write_ne by (discriminate || congruence)
    | rewrite get_reg_set_bits_eq
    | rewrite get_reg_set_bits_ne by (discriminate || congruence)
    | rewrite get_reg_commit_reg_eq
    | rewrite get_reg_commit_reg_ne by (discriminate || congruence)
    | rewrite get_reg_abort
    | rewrite get_reg_commit ].

(** Evaluation of a method on a state given field by field; the register
    file, the storage contract and integer arithmetic stay folded. *)
Ltac evaluate :=
  lazy -[ext_write ext_set_bits ext_commit_reg ext_abort ext_commit
         with_rnd_client get_reg increment_insn_cnt
         s_abort s_commit s_record s_read
         Z.eqb Z.lor Z.shiftl Z.shiftr Z.land Z.add Z.sub Z.geb Z.leb Z.modulo
         Z.testbit Z.lt Z.le Z.pow
         should_lock
         GprFile WdrFile DmemCells LoopFrames WsrVals FlagGroups EdnClient
         GPRs_new RegFile_new Dmem_new LoopStack_new WSRFile_new CSRFile_new
         EdnClient_new OTBNExtRegs_new imem_size_bytes
         edn_request edn_step edn_poison edn_forget edn_cdc_complete
         gprs_post_insn gprs_err_bits gprs_empty_call_stack
         loop_stack_step loop_stack_err_bits wsrs_on_start ext_regs_step
         ErrBits_BAD_INSN_ADDR Status_BUSY_EXECUTE Status_LOCKED].

(** The same, with the tests on enumeration members kept folded. *)
Ltac evaluate_tests :=
  lazy -[member bool_decide ext_write ext_set_bits ext_commit_reg ext_abort ext_commit
         with_rnd_client get_reg increment_insn_cnt
         s_abort s_commit s_record s_read
         Z.eqb Z.lor Z.shiftl Z.shiftr Z.land Z.add Z.sub Z.geb Z.leb Z.modulo
         Z.testbit Z.lt Z.le Z.pow
         should_lock
         GprFile WdrFile DmemCells LoopFrames WsrVals FlagGroups EdnClient
         GPRs_new RegFile_new Dmem_new LoopStack_new WSRFile_new CSRFile_new
         EdnClient_new OTBNExtRegs_new imem_size_bytes
         edn_request edn_step edn_poison edn_forget edn_cdc_complete
         gprs_post_insn gprs_err_bits gprs_empty_call_stack
         loop_stack_step loop_stack_err_bits wsrs_on_start ext_regs_step
         ErrBits_BAD_INSN_ADDR Status_BUSY_EXECUTE Status_LOCKED].

Section Properties.
Context {E : Externals}.

Local Abbreviation State := (OTBNState E).

(** *** should_lock *)

Lemma should_lock_spec (err : Z) (sef : bool) (rma : LcTx) :
  should_lock err sef rma = true <->
  (exists i, 16 <= i /\ Z.testbit err i = true)
  \/ Z.testbit err 10 = true
  \/ (err <> 0 /\ sef = true)
  \/ rma = LcTx_ON.
Proof.
  unfold should_lock.
  rewrite !orb_true_iff, andb_true_iff, !negb_true_iff, !Z.eqb_neq,
    bool_decide_eq_true.
  rewrite (shiftr_nonzero_iff _ 16), (bit_of_shiftr_land_1 _ 10) by lia.
  tauto.
Qed.

(** *** stop *)

(** Evaluation of [stop] on a state given field by field, once the test
    of the error bits is known. *)
Ltac stop_eval He :=
  unfold stop; lazy beta iota delta [_err_bits]; rewrite He; evaluate.

(** [stop] raises exactly when it reaches an [assert should_lock] that
    fails. *)
Lemma stop_raises_iff (s : State) :
  stop s = AssertionError <->
  stop_asserts_lock s = true /\ stop_should_lock s = false.
Proof.
  destruct s as [? ? ? ? ? ? ? ? ? fsm ? isw ? ? ? err ? ? ? ? ? ? ? li ? sef ? rma ? ? ?].
  destruct li, fsm, isw, (err =? 0) eqn:He; stop_eval He;
    try destruct (should_lock err sef rma);
    split; (discriminate || tauto || (intros [? ?]; discriminate)).
Qed.

Lemma stop_returns (s : State) :
  (stop_asserts_lock s = true -> stop_should_lock s = true) ->
  exists s', stop s = Ok s'.
Proof.
  intros H. destruct (stop s) as [s'|] eqn:Hs; [eauto | ].
  apply stop_raises_iff in Hs as [Ha Hl]. rewrite (H Ha) in Hl. discriminate.
Qed.

(** What [stop] does to the wipe controls and the external registers
    when it is called during [EXEC] without [lock_immediately]. *)
Lemma stop_exec_starts_wipe (s : State) :
  lock_immediately s = false ->
  _fsm_state s = EXEC ->
  exists s', stop s = Ok s'
    /\ _next_fsm_state s' = PRE_WIPE
    /\ lock_after_wipe s' = stop_should_lock s
    /\ wipe_rounds_done s' = 0
    /\ pending (get_reg "STOP_PC" (ext_regs s')) = Some (pc s)
    /\ get_reg "WIPE_START" (ext_regs s') = mkStaged 1 None.
Proof.
  intros Hl Hf.
  destruct s as [? ? ? ? ? ? ? ? ? fsm ? isw ? ? ? err ? ? ? ? ? ? ? li ? sef ? rma ? ? ?].
  cbn in Hl, Hf. subst li fsm.
  destruct (err =? 0) eqn:He; stop_eval He;
    (eexists; split; [reflexivity | ]);
    repeat split; evaluate; regs_simpl; reflexivity.
Qed.

(** C1, as amended.  When [stop] is called with error bits set during
    [EXEC], every change staged on the general registers, the next-PC
    override, the memory, the loop stack, the special registers, the flags
    and the wide registers is discarded, and so is every change staged on
    an external register; then [stop] stages bit 0 of INTR_STATE and
    ERR_BITS, and either STATUS (with [lock_immediately]) or STOP_PC and
    WIPE_START, the latter committed at once.  INTR_STATE and ERR_BITS are
    written by every call that returns, rollback or not. *)
Theorem stop_rolls_back_failed_insn :
  (forall s : State,
      _err_bits s <> 0 ->
      _fsm_state s = EXEC ->
      (lock_immediately s = true -> stop_should_lock s = true) ->
      exists s', stop s = Ok s'
        /\ gprs s' = st_abort (gprs s)
        /\ _pc_next_override s' = None
        /\ dmem s' = st_abort (dmem s)
        /\ loop_stack s' = st_abort (loop_stack s)
        /\ wsrs s' = st_abort (wsrs s)
        /\ flags (csrs s') = st_abort (flags (csrs s))
        /\ wdrs s' = st_abort (wdrs s)
        /\ (forall r,
              r <> "INTR_STATE" -> r <> "ERR_BITS" -> r <> "STOP_PC" ->
              r <> "WIPE_START" -> r <> "STATUS" ->
              get_reg r (ext_regs s') = s_abort (get_reg r (ext_regs s)))
        /\ get_reg "INTR_STATE" (ext_regs s')
            = mkStaged (committed (get_reg "INTR_STATE" (ext_regs s)))
                (Some (Z.lor (committed (get_reg "INTR_STATE" (ext_regs s))) 1))
        /\ get_reg "ERR_BITS" (ext_regs s')
            = mkStaged (committed (get_reg "ERR_BITS" (ext_regs s)))
                (Some (_err_bits s))
        /\ (if lock_immediately s then
              get_reg "STATUS" (ext_regs s')
              = mkStaged (committed (get_reg "STATUS" (ext_regs s)))
                  (Some (Status_LOCKED E))
              /\ get_reg "STOP_PC" (ext_regs s')
                 = s_abort (get_reg "STOP_PC" (ext_regs s))
              /\ get_reg "WIPE_START" (ext_regs s')
                 = s_abort (get_reg "WIPE_START" (ext_regs s))
            else
              get_reg "STOP_PC" (ext_regs s')
              = mkStaged (committed (get_reg "STOP_PC" (ext_regs s))) (Some (pc s))
              /\ get_reg "WIPE_START" (ext_regs s') = mkStaged 1 None
              /\ get_reg "STATUS" (ext_regs s')
                 = s_abort (get_reg "STATUS" (ext_regs s))))
  /\ (forall s s' : State,
        stop s = Ok s' ->
        pending (get_reg "ERR_BITS" (ext_regs s')) = Some (_err_bits s)
        /\ exists v,
             pending (get_reg "INTR_STATE" (ext_regs s')) = Some v
             /\ Z.testbit v 0 = true).
Proof.
  split.
  - intros s He Hf Hl. apply Z.eqb_neq in He.
    destruct s as [? ? ? ? ? ? ? ? ? fsm ? isw ? ? ? err ? ? ? ? ? ? ? li ? sef ? rma ? ? ?].
    cbn in He, Hf, Hl. subst fsm.
    destruct li.
    + specialize (Hl eq_refl). unfold stop_should_lock in Hl. cbn in Hl.
      stop_eval He. rewrite Hl. evaluate.
      eexists; split; [reflexivity | ].
      repeat split; intros; evaluate; regs_simpl; reflexivity.
    + clear Hl. stop_eval He.
      eexists; split; [reflexivity | ].
      repeat split; intros; evaluate; regs_simpl; reflexivity.
  - intros s s' Hs.
    destruct s as [? ? ? ? ? ? ? ? ? fsm ? isw ? ? ? err ? ? ? ? ? ? ? li ? sef ? rma ? ? ?].
    revert Hs.
    destruct li, fsm, isw, (err =? 0) eqn:He; stop_eval He;
      try destruct (should_lock err sef rma); evaluate;
      intros Hs; try discriminate Hs;
      injection Hs as <-; evaluate; regs_simpl;
      (split; [reflexivity | eexists; split; [reflexivity | ] ]);
      rewrite Z.lor_spec; apply orb_true_r.
Qed.

(** C3.  The decision [stop] takes is [should_lock] of the error bits, the
    policy flag and the RMA request found at the call: some error bit at
    position 16 or above, error bit 10, any error bit under the policy
    "software errors are fatal", or an RMA request that is ON.  It is what
    the assertions of [stop] test and what [lock_after_wipe] receives. *)
Theorem stop_should_lock_decision :
  (forall (err : Z) (sef : bool) (rma : LcTx),
      should_lock err sef rma = true <->
      (exists i, 16 <= i /\ Z.testbit err i = true)
      \/ Z.testbit err 10 = true
      \/ (err <> 0 /\ sef = true)
      \/ rma = LcTx_ON)
  /\ (forall s : State,
        stop s = AssertionError <->
        stop_asserts_lock s = true
        /\ should_lock (_err_bits s) (software_errs_fatal s) (rma_req s) = false)
  /\ (forall s : State,
        lock_immediately s = false ->
        _fsm_state s = EXEC ->
        exists s', stop s = Ok s'
          /\ lock_after_wipe s'
             = should_lock (_err_bits s) (software_errs_fatal s) (rma_req s)).
Proof.
  split; [exact should_lock_spec | split].
  - exact stop_raises_iff.
  - intros s Hl Hf.
    destruct (stop_exec_starts_wipe s Hl Hf) as (s' & Hs & _ & Hlaw & _).
    exists s'. split; [exact Hs | exact Hlaw].
Qed.

(** C6, as amended.  A call to [stop] with no error bit, without
    [lock_immediately] and during [EXEC] moves the next state to
    [PRE_WIPE], resets [wipe_rounds_done], stages the PC in STOP_PC and
    leaves WIPE_START committed at 1; [lock_after_wipe] becomes whether the
    RMA request is ON, so it is false when that request is not ON. *)
Theorem stop_clean_exec_starts_wipe (s : State) :
  _err_bits s = 0 ->
  lock_immediately s = false ->
  _fsm_state s = EXEC ->
  exists s', stop s = Ok s'
    /\ _next_fsm_state s' = PRE_WIPE
    /\ lock_after_wipe s' = bool_decide (rma_req s = LcTx_ON)
    /\ wipe_rounds_done s' = 0
    /\ pending (get_reg "STOP_PC" (ext_regs s')) = Some (pc s)
    /\ get_reg "WIPE_START" (ext_regs s') = mkStaged 1 None.
Proof.
  intros He Hl Hf.
  destruct (stop_exec_starts_wipe s Hl Hf) as (s' & Hs & Hn & Hlaw & Hrest).
  exists s'. split; [exact Hs | split; [exact Hn | split; [ | exact Hrest ] ] ].
  rewrite Hlaw. unfold stop_should_lock. rewrite He. reflexivity.
Qed.

(** C10, as amended.  When [stop] is called with no error bit, or outside
    [EXEC], nothing is aborted: what is staged on the general registers, the
    next-PC override, the memory, the loop stack, the special registers, the
    flags and the wide registers stays in place, and so does what is staged
    on every external register that [stop] does not write, among them the
    staged increment of INSN_CNT.  Of the registers [stop] writes, INTR_STATE
    keeps what was staged on it with bit 0 or-ed in; the staged value of
    ERR_BITS is replaced by the error bits; STOP_PC and WIPE_START are
    written, the latter committed at once, during [EXEC] without
    [lock_immediately], and STATUS is written under [lock_immediately] or,
    outside a run and a wipe, once the initial secure wipe is done; in the
    other branches these three are as they were. *)
Theorem stop_keeps_staged_changes (s : State) :
  _err_bits s = 0 \/ _fsm_state s <> EXEC ->
  (stop_asserts_lock s = true -> stop_should_lock s = true) ->
  exists s', stop s = Ok s'
    /\ gprs s' = gprs s
    /\ _pc_next_override s' = _pc_next_override s
    /\ dmem s' = dmem s
    /\ loop_stack s' = loop_stack s
    /\ wsrs s' = wsrs s
    /\ csrs s' = csrs s
    /\ wdrs s' = wdrs s
    /\ (forall r,
          r <> "INTR_STATE" -> r <> "ERR_BITS" -> r <> "STOP_PC" ->
          r <> "WIPE_START" -> r <> "STATUS" ->
          get_reg r (ext_regs s') = get_reg r (ext_regs s))
    /\ get_reg "INSN_CNT" (ext_regs s') = get_reg "INSN_CNT" (ext_regs s)
    /\ get_reg "INTR_STATE" (ext_regs s')
       = mkStaged (committed (get_reg "INTR_STATE" (ext_regs s)))
           (Some (Z.lor (s_read (get_reg "INTR_STATE" (ext_regs s))) 1))
    /\ get_reg "ERR_BITS" (ext_regs s')
       = mkStaged (committed (get_reg "ERR_BITS" (ext_regs s)))
           (Some (_err_bits s))
    /\ get_reg "STOP_PC" (ext_regs s')
       = (if negb (lock_immediately s) && bool_decide (_fsm_state s = EXEC)
          then mkStaged (committed (get_reg "STOP_PC" (ext_regs s))) (Some (pc s))
          else get_reg "STOP_PC" (ext_regs s))
    /\ get_reg "WIPE_START" (ext_regs s')
       = (if negb (lock_immediately s) && bool_decide (_fsm_state s = EXEC)
          then mkStaged 1 None
          else get_reg "WIPE_START" (ext_regs s))
    /\ get_reg "STATUS" (ext_regs s')
       = (if lock_immediately s
             || (negb (member (_fsm_state s) [EXEC; PRE_WIPE; WIPING])
                 && bool_decide (_init_sec_wipe_state s = DONE))
          then mkStaged (committed (get_reg "STATUS" (ext_regs s)))
                 (Some (Status_LOCKED E))
          else get_reg "STATUS" (ext_regs s)).
Proof.
  intros Hc Ha.
  destruct (stop_returns s Ha) as (s' & Hs).
  exists s'. split; [exact Hs | ].
  clear Ha. revert Hc Hs.
  destruct s as [? ? ? ? ? ? ? ? ? fsm ? isw ? ? ? err ? ? ? ? ? ? ? li ? sef ? rma ? ? ?].
  cbn [_err_bits _fsm_state].
  destruct li, fsm, isw, (err =? 0) eqn:He;
    try (apply Z.eqb_neq in He; intros [? | ?]; congruence);
    intros _; stop_eval He;
    try destruct (should_lock err sef rma); evaluate;
    intros Hs; try discriminate Hs;
    injection Hs as <-;
    repeat split; intros; evaluate; regs_simpl; reflexivity.
Qed.
(** *** commit *)

(** C2.  [commit] always commits the external registers and URND.  The
    general registers, the memory, the loop stack, the special registers,
    the flags and the wide registers are committed, in this order, exactly
    when the state found at the call is [EXEC] or [WIPING]; the PC takes
    the next-PC value in that case only, and only when not stalled. *)
Theorem commit_effects (sim_stalled : bool) (s : State) :
  ext_regs (commit sim_stalled s) = st_commit (ext_regs s)
  /\ URND (wsrs (commit sim_stalled s)) = st_commit (URND (wsrs s))
  /\ gprs (commit sim_stalled s)
     = (if member (_fsm_state s) [EXEC; WIPING]
        then st_commit (gprs s) else gprs s)
  /\ dmem (commit sim_stalled s)
     = (if member (_fsm_state s) [EXEC; WIPING]
        then st_commit (dmem s) else dmem s)
  /\ loop_stack (commit sim_stalled s)
     = (if member (_fsm_state s) [EXEC; WIPING]
        then st_commit (loop_stack s) else loop_stack s)
  /\ wsr_others (wsrs (commit sim_stalled s))
     = (if member (_fsm_state s) [EXEC; WIPING]
        then st_commit (wsr_others (wsrs s)) else wsr_others (wsrs s))
  /\ flags (csrs (commit sim_stalled s))
     = (if member (_fsm_state s) [EXEC; WIPING]
        then st_commit (flags (csrs s)) else flags (csrs s))
  /\ wdrs (commit sim_stalled s)
     = (if member (_fsm_state s) [EXEC; WIPING]
        then st_commit (wdrs s) else wdrs s)
  /\ (commit_calls sim_stalled s).2
     = ([R_ext_regs; R_URND]
        ++ (if member (_fsm_state s) [EXEC; WIPING]
            then [R_gprs; R_dmem; R_loop_stack; R_wsrs; R_flags; R_wdrs]
            else []))%list
  /\ pc (commit sim_stalled s)
     = (if member (_fsm_state s) [EXEC; WIPING] && negb sim_stalled
        then get_next_pc s else pc s)
  /\ _pc_next_override (commit sim_stalled s)
     = (if member (_fsm_state s) [EXEC; WIPING] && negb sim_stalled
        then None else _pc_next_override s).
Proof.
  destruct s as [? ? ? ? ? ? ovr ? ? fsm nfsm ? ? ? ? ? ? ? tti ? ? ? ? ? ? ? ? ? ? ? ?].
  unfold commit.
  match goal with
  | |- context [commit_calls ?b ?x] =>
      destruct (commit_calls b x) as [s' calls] eqn:Hc
  end.
  revert Hc.
  destruct fsm, sim_stalled, tti as [t|];
    try destruct (t - 1 =? 0) eqn:Ht;
    unfold commit_calls;
    lazy beta iota delta [_time_to_imem_invalidation]; rewrite ?Ht;
    evaluate_tests; intros [= <- <-]; repeat split; reflexivity.
Qed.

(** *** Locked is terminal *)

Lemma step_fsm (b : bool) (s : State) :
  _fsm_state (step b s) = _fsm_state s
  /\ _next_fsm_state (step b s) = _next_fsm_state s.
Proof.
  destruct s as [? ? ? ? ? ? ? ? ? ? ? ? ? ? ? ? ? ? ? ? ? ? inj ? ? ? ? ? ? ? ?].
  destruct b, (inj =? 0) eqn:Hi;
    unfold step, take_injected_err_bits;
    lazy beta iota delta [injected_err_bits]; rewrite ?Hi;
    evaluate; split; reflexivity.
Qed.

Lemma commit_fsm (b : bool) (s : State) :
  _fsm_state (commit b s) = _next_fsm_state s
  /\ _next_fsm_state (commit b s) = _next_fsm_state s.
Proof.
  destruct s as [? ? ? ? ? ? ovr ? ? fsm nfsm ? ? ? ? ? ? ? tti ? ? ? ? ? ? ? ? ? ? ? ?].
  destruct fsm, b, tti as [t|];
    try destruct (t - 1 =? 0) eqn:Ht;
    unfold commit, commit_calls;
    lazy beta iota delta [_time_to_imem_invalidation]; rewrite ?Ht;
    evaluate_tests; split; reflexivity.
Qed.

(** C4.  From a state whose FSM state and next FSM state are both
    [LOCKED], no sequence of [step] and [commit] calls leaves [LOCKED]. *)
Theorem locked_is_terminal (cs : list DriverCall) (s : State) :
  _fsm_state s = LOCKED ->
  _next_fsm_state s = LOCKED ->
  _fsm_state (run cs s) = LOCKED /\ _next_fsm_state (run cs s) = LOCKED.
Proof.
  revert s. induction cs as [|c cs IH]; intros s Hf Hn.
  - split; assumption.
  - cbn [run fold_left]. apply IH.
    + destruct c as [b|b]; cbn [drive].
      * rewrite (proj1 (step_fsm b s)). exact Hf.
      * rewrite (proj1 (commit_fsm b s)). exact Hn.
    + destruct c as [b|b]; cbn [drive].
      * rewrite (proj2 (step_fsm b s)). exact Hn.
      * rewrite (proj2 (commit_fsm b s)). exact Hn.
Qed.

(** *** PC validity *)

Lemma is_pc_valid_true_iff (pc_ : Z) (s : State) :
  is_pc_valid pc_ s = Ok true <-> pc_ mod 4 = 0 /\ 0 <= pc_ < imem_size s.
Proof.
  unfold is_pc_valid, assert_.
  rewrite land_3_mod_4, Z.geb_leb.
  destruct (0 <=? pc_) eqn:H0; cbn.
  - apply Z.leb_le in H0.
    destruct (pc_ mod 4 =? 0) eqn:H1; cbn.
    + apply Z.eqb_eq in H1.
      destruct (imem_size s <=? pc_) eqn:H2; cbn.
      * apply Z.leb_le in H2. split; [discriminate | lia].
      * apply Z.leb_gt in H2. split; [lia | reflexivity].
    + apply Z.eqb_neq in H1. split; [discriminate | lia].
  - apply Z.leb_gt in H0. split; [discriminate | lia].
Qed.

(** C5.  [is_pc_valid] returns true exactly on the multiples of 4 from 0
    up to, and not including, the size of the instruction memory; and
    when [post_insn] finds that the next PC fails this check while no halt
    is pending, it sets BAD_INSN_ADDR in the error bits and requests the
    halt. *)
Theorem pc_validity :
  (forall (pc_ : Z) (s : State),
      is_pc_valid pc_ s = Ok true <-> pc_ mod 4 = 0 /\ 0 <= pc_ < imem_size s)
  /\ (forall (loop_warps : gmap Z Z) (s mid : State),
        post_insn_update loop_warps s = Ok mid ->
        is_pc_valid (get_next_pc mid) mid = Ok false ->
        pending_halt mid = false ->
        exists s', post_insn loop_warps s = Ok s'
          /\ _err_bits s' = Z.lor (_err_bits mid) (ErrBits_BAD_INSN_ADDR E)
          /\ Z.land (_err_bits s') (ErrBits_BAD_INSN_ADDR E) = ErrBits_BAD_INSN_ADDR E
          /\ pending_halt s' = true).
Proof.
  split; [exact is_pc_valid_true_iff | ].
  intros loop_warps s mid Hu Hv Hp.
  unfold post_insn. rewrite Hu. cbn [mbind result_bind].
  unfold post_insn_check. rewrite Hv. cbn [mbind result_bind]. rewrite Hp.
  cbn [negb andb].
  eexists. split; [reflexivity | ].
  cbn. split; [reflexivity | split; [apply land_lor_absorb | reflexivity] ].
Qed.

(** *** start *)

(** C7.  [start] stages BUSY_EXECUTE in STATUS, clears [pending_halt] and
    the error bits, sets the FSM state and the next FSM state to
    [PRE_EXEC], sets the PC to 0, replaces the CSR file and the loop stack
    by fresh ones, empties the call stack, gives the special registers
    their start-of-run treatment, poisons the RND client and requests a
    URND seed. *)
Theorem start_effects (s : State) :
  get_reg "STATUS" (ext_regs (start s))
  = s_record (Status_BUSY_EXECUTE E) (get_reg "STATUS" (ext_regs s))
  /\ pending_halt (start s) = false
  /\ _err_bits (start s) = 0
  /\ _fsm_state (start s) = PRE_EXEC
  /\ _next_fsm_state (start s) = PRE_EXEC
  /\ pc (start s) = 0
  /\ csrs (start s) = CSRFile_new E
  /\ loop_stack (start s) = LoopStack_new E
  /\ gprs (start s) = gprs_empty_call_stack E (gprs s)
  /\ wsrs (start s) = wsrs_on_start E (wsrs s)
  /\ _rnd_client (ext_regs (start s)) = edn_poison E (_rnd_client (ext_regs s))
  /\ _urnd_client (start s) = edn_request E (_urnd_client s).
Proof.
  destruct s. repeat split; evaluate; regs_simpl; reflexivity.
Qed.

(** *** IMEM invalidation *)

(** C8.  After [invalidate_imem] the counter is armed at 2; the first
    [commit] brings it to 1 and leaves [invalidated_imem] as it was; the
    second sets [invalidated_imem] and clears the counter.  In general
    [commit] takes one off an armed counter and fires when it reaches 0. *)
Theorem imem_invalidation_timing :
  (forall (b1 b2 : bool) (s : State),
      _time_to_imem_invalidation (invalidate_imem s) = Some 2
      /\ _time_to_imem_invalidation (commit b1 (invalidate_imem s)) = Some 1
      /\ invalidated_imem (commit b1 (invalidate_imem s)) = invalidated_imem s
      /\ invalidated_imem (commit b2 (commit b1 (invalidate_imem s))) = true
      /\ _time_to_imem_invalidation (commit b2 (commit b1 (invalidate_imem s))) = None)
  /\ (forall (b : bool) (s : State),
        _time_to_imem_invalidation (commit b s)
        = match _time_to_imem_invalidation s with
          | Some t => if t - 1 =? 0 then None else Some (t - 1)
          | None => None
          end
        /\ invalidated_imem (commit b s)
           = match _time_to_imem_invalidation s with
             | Some t => if t - 1 =? 0 then true else invalidated_imem s
             | None => invalidated_imem s
             end).
Proof.
  assert (Hgen : forall (b : bool) (s : State),
        _time_to_imem_invalidation (commit b s)
        = match _time_to_imem_invalidation s with
          | Some t => if t - 1 =? 0 then None else Some (t - 1)
          | None => None
          end
        /\ invalidated_imem (commit b s)
           = match _time_to_imem_invalidation s with
             | Some t => if t - 1 =? 0 then true else invalidated_imem s
             | None => invalidated_imem s
             end).
  { intros b s.
    destruct s as [? ? ? ? ? ? ovr ? ? fsm nfsm ? ? ? ? ? ? ? tti ? ? ? ? ? ? ? ? ? ? ? ?].
    destruct fsm, b, tti as [t|];
      try destruct (t - 1 =? 0) eqn:Ht;
      unfold commit, commit_calls;
      lazy beta iota delta [_time_to_imem_invalidation]; rewrite ?Ht;
      evaluate_tests; split; reflexivity. }
  split; [ | exact Hgen].
  intros b1 b2 s.
  pose proof (Hgen b1 (invalidate_imem s)) as [T1 I1].
  pose proof (Hgen b2 (commit b1 (invalidate_imem s))) as [T2 I2].
  rewrite T1 in T2, I2.
  change (_time_to_imem_invalidation (invalidate_imem s)) with (Some 2) in *.
  change (invalidated_imem (invalidate_imem s)) with (invalidated_imem s) in *.
  cbn in T1, I1, T2, I2.
  repeat split; assumption.
Qed.

(** *** urnd_completed *)

(** C9.  [urnd_completed] fails its assertion exactly when the URND
    client reports no value or asks for a retry.  Otherwise the value is
    cut into four 64-bit words, least significant first, which are staged
    as the URND seed, and [edn_seen_running] is set. *)
Theorem urnd_completed_contract
    (s : State) (w : option Z) (retry f r : bool) (cl : EdnClient E) :
  edn_cdc_complete E (_urnd_client s) = (w, retry, f, r, cl) ->
  (urnd_completed s = AssertionError <-> w = None \/ retry = true)
  /\ (forall v : Z,
        w = Some v -> retry = false ->
        exists s' w0 w1 w2 w3,
          urnd_completed s = Ok s'
          /\ pending (URND (wsrs s')) = Some [w0; w1; w2; w3]
          /\ w0 = v mod 2 ^ 64
          /\ w1 = (v / 2 ^ 64) mod 2 ^ 64
          /\ w2 = (v / 2 ^ 128) mod 2 ^ 64
          /\ w3 = (v / 2 ^ 192) mod 2 ^ 64
          /\ (0 <= v < 2 ^ 256 ->
              v = w0 + 2 ^ 64 * w1 + 2 ^ 128 * w2 + 2 ^ 192 * w3)
          /\ edn_seen_running s' = true).
Proof.
  intros Hc. unfold urnd_completed. rewrite Hc.
  destruct w as [v|], retry; cbn [negb assert_ mbind result_bind].
  - split; [tauto | ]. intros; discriminate.
  - split.
    + split; [discriminate | intros [? | ?]; discriminate].
    + intros v' [= <-] _.
      eexists. exists (v mod 2 ^ 64), ((v / 2 ^ 64) mod 2 ^ 64),
        ((v / 2 ^ 128) mod 2 ^ 64), ((v / 2 ^ 192) mod 2 ^ 64).
      split; [reflexivity | ].
      split.
      { cbn [wsrs set_wsrs URND URND_set_seed pending s_record map].
        rewrite !quarter_word by lia.
        change (64 * 0) with 0. change (64 * 1) with 64.
        change (64 * 2) with 128. change (64 * 3) with 192.
        rewrite Z.pow_0_r, Z.div_1_r. reflexivity. }
      repeat (split; [reflexivity | ]).
      split; [apply quarter_words_recombine | reflexivity].
  - split; [tauto | ]. intros; discriminate.
  - split; [tauto | ]. intros; discriminate.
Qed.
End Properties.

(** * The properties on the concrete collaborators *)

(** C1, witness: a software error during [EXEC] at PC 8, with a register
    write, a jump and the INSN_CNT increment staged. *)
Lemma stop_rolls_back_failed_insn_witness :
  exists s',
    stop sample_failed = Ok s'
    /\ gprs s' = mkStaged (repeat 0 32%nat) None
    /\ _pc_next_override s' = None
    /\ get_reg "INSN_CNT" (ext_regs s') = mkStaged 0 None
    /\ get_reg "ERR_BITS" (ext_regs s') = mkStaged 0 (Some 1)
    /\ get_reg "WIPE_START" (ext_regs s') = mkStaged 1 None.
Proof.
  destruct (proj1 (stop_rolls_back_failed_insn (E := sample_externals)) sample_failed)
    as (s' & Hs & Hg & Ho & _ & _ & _ & _ & _ & Hr & _ & He & Hw).
  - vm_compute. discriminate.
  - vm_compute. reflexivity.
  - intros H. vm_compute in H. discriminate.
  - exists s'. split; [exact Hs | ].
    split; [rewrite Hg; vm_compute; reflexivity | ].
    split; [exact Ho | ].
    split; [rewrite Hr by discriminate; vm_compute; reflexivity | ].
    split; [rewrite He; vm_compute; reflexivity | ].
    change (lock_immediately sample_failed) with false in Hw.
    exact (proj1 (proj2 Hw)).
Defined.

(** C1, counterexample: after that call WIPE_START is committed at 1 and
    STOP_PC holds a staged write, so the external registers do not show
    their values from before the instruction. *)
Lemma stop_failed_insn_writes_wipe_start :
  _err_bits sample_failed <> 0
  /\ _fsm_state sample_failed = EXEC
  /\ exists s',
       stop sample_failed = Ok s'
       /\ committed (get_reg "WIPE_START" (ext_regs sample_failed)) = 0
       /\ committed (get_reg "WIPE_START" (ext_regs s')) = 1
       /\ pending (get_reg "STOP_PC" (ext_regs sample_failed)) = None
       /\ pending (get_reg "STOP_PC" (ext_regs s')) = Some 8.
Proof.
  split; [vm_compute; discriminate | ].
  split; [vm_compute; reflexivity | ].
  eexists. split; [vm_compute; reflexivity | ].
  repeat split; vm_compute; reflexivity.
Qed.

(** C3, witness: an RMA request with no error bit set. *)
Lemma stop_should_lock_decision_witness :
  should_lock 0 false LcTx_ON = true
  /\ (exists s', stop sample_rma = Ok s' /\ lock_after_wipe s' = true).
Proof.
  destruct (stop_should_lock_decision (E := sample_externals)) as (H1 & _ & H3).
  split.
  - apply H1. right. right. right. reflexivity.
  - destruct (H3 sample_rma) as (s' & Hs & Hl).
    + vm_compute. reflexivity.
    + vm_compute. reflexivity.
    + exists s'. split; [exact Hs | ]. rewrite Hl. vm_compute. reflexivity.
Defined.

(** C4, witness: two cycles driven from a locked state. *)
Lemma locked_is_terminal_witness :
  _fsm_state (run [Step true; Commit false; Step false; Commit true] sample_locked)
  = LOCKED.
Proof.
  apply (locked_is_terminal (E := sample_externals)).
  - vm_compute. reflexivity.
  - vm_compute. reflexivity.
Defined.

(** C5, witness: PC 4092 is valid in a 4096-byte memory, and the
    straight-line successor of the instruction there is not. *)
Lemma pc_validity_witness :
  is_pc_valid 4092 sample_top = Ok true
  /\ (exists s',
        post_insn ∅ sample_top = Ok s'
        /\ _err_bits s' = 2
        /\ pending_halt s' = true).
Proof.
  destruct (pc_validity (E := sample_externals)) as (H1 & H2).
  split.
  - apply H1. vm_compute. split; [reflexivity | ].
    split; [discriminate | reflexivity].
  - edestruct (H2 ∅ sample_top) as (s' & Hs & He & _ & Hp).
    + vm_compute. reflexivity.
    + vm_compute. reflexivity.
    + vm_compute. reflexivity.
    + exists s'. split; [exact Hs | ]. split; [ | exact Hp].
      rewrite He. vm_compute. reflexivity.
Defined.

(** C6, witness: a clean stop with the RMA request off. *)
Lemma stop_clean_exec_starts_wipe_witness :
  exists s',
    stop sample_exec = Ok s'
    /\ _next_fsm_state s' = PRE_WIPE
    /\ lock_after_wipe s' = false
    /\ wipe_rounds_done s' = 0
    /\ pending (get_reg "STOP_PC" (ext_regs s')) = Some 8
    /\ get_reg "WIPE_START" (ext_regs s') = mkStaged 1 None.
Proof.
  apply (stop_clean_exec_starts_wipe (E := sample_externals) sample_exec).
  - vm_compute. reflexivity.
  - vm_compute. reflexivity.
  - vm_compute. reflexivity.
Defined.

(** C6, counterexample: with no error bit, without [lock_immediately] and
    during [EXEC], [stop] sets [lock_after_wipe] when the RMA request is
    ON. *)
Lemma stop_clean_exec_locks_on_rma :
  _err_bits sample_rma = 0
  /\ lock_immediately sample_rma = false
  /\ _fsm_state sample_rma = EXEC
  /\ exists s', stop sample_rma = Ok s' /\ lock_after_wipe s' = true.
Proof.
  repeat split; try (vm_compute; reflexivity).
  eexists. split; vm_compute; reflexivity.
Qed.

(** C9, witness: the word with quarter-words 1, 2, 3 and 4. *)
Lemma urnd_completed_contract_witness :
  exists s',
    urnd_completed sample_urnd = Ok s'
    /\ pending (URND (wsrs s')) = Some [1; 2; 3; 4]
    /\ edn_seen_running s' = true.
Proof.
  destruct (urnd_completed_contract (E := sample_externals) sample_urnd
              (Some (Z.shiftl 4 192 + Z.shiftl 3 128 + Z.shiftl 2 64 + 1))
              false false false None)
    as (_ & H).
  - vm_compute. reflexivity.
  - destruct (H _ eq_refl eq_refl)
      as (s' & w0 & w1 & w2 & w3 & Hs & Hp & -> & -> & -> & -> & _ & Hr).
    exists s'. split; [exact Hs | ]. split; [ | exact Hr].
    rewrite Hp. vm_compute. reflexivity.
Defined.

(** C10, witness: a clean stop keeps the staged register write, the staged
    jump and the staged INSN_CNT increment. *)
Lemma stop_keeps_staged_changes_witness :
  exists s',
    stop sample_exec = Ok s'
    /\ pending (gprs s') = Some (repeat 7 32%nat)
    /\ _pc_next_override s' = Some 64
    /\ get_reg "INSN_CNT" (ext_regs s') = mkStaged 0 (Some 1)
    /\ get_reg "ERR_BITS" (ext_regs s') = mkStaged 0 (Some 0)
    /\ get_reg "STOP_PC" (ext_regs s') = mkStaged 0 (Some 8)
    /\ get_reg "WIPE_START" (ext_regs s') = mkStaged 1 None
    /\ get_reg "STATUS" (ext_regs s') = mkStaged 0 None.
Proof.
  destruct (stop_keeps_staged_changes (E := sample_externals) sample_exec)
    as (s' & Hs & Hg & Ho & _ & _ & _ & _ & _ & _ & Hi & _ & He & Hp & Hw & Hst).
  - left. vm_compute. reflexivity.
  - intros H. vm_compute in H. discriminate.
  - exists s'. split; [exact Hs | ].
    split; [rewrite Hg; vm_compute; reflexivity | ].
    split; [rewrite Ho; vm_compute; reflexivity | ].
    split; [rewrite Hi; vm_compute; reflexivity | ].
    split; [rewrite He; vm_compute; reflexivity | ].
    split; [rewrite Hp; vm_compute; reflexivity | ].
    split; [rewrite Hw; vm_compute; reflexivity | ].
    rewrite Hst. vm_compute. reflexivity.
Defined.

(** C10, counterexample: an RMA request seen right after [start], in the
    same cycle.  The error bits are zero and the FSM state is [PRE_EXEC];
    [stop] replaces the BUSY_EXECUTE that [start] staged on STATUS by
    LOCKED, so that staged write is not left in place. *)
Lemma stop_overwrites_staged_status :
  _err_bits sample_started_rma = 0
  /\ _fsm_state sample_started_rma <> EXEC
  /\ pending (get_reg "STATUS" (ext_regs sample_started_rma)) = Some 1
  /\ exists s',
       stop sample_started_rma = Ok s'
       /\ pending (get_reg "STATUS" (ext_regs s')) = Some 255.
Proof.
  split; [vm_compute; reflexivity | ].
  split; [vm_compute; discriminate | ].
  split; [vm_compute; reflexivity | ].
  eexists. split; vm_compute; reflexivity.
Qed.

(** * Further properties of the control state *)

Section Further.
Context {E : Externals}.

Local Abbreviation State := (OTBNState E).

(** ** What [commit] and [step] do to the control fields *)

Lemma commit_control (b : bool) (s : State) :
  _fsm_state (commit b s) = _next_fsm_state s
  /\ _next_fsm_state (commit b s) = _next_fsm_state s
  /\ cycles_in_this_state (commit b s)
     = (if bool_decide (_next_fsm_state s = _fsm_state s)
        then cycles_in_this_state s + 1 else 0)
  /\ pc (commit b s)
     = (if member (_fsm_state s) [EXEC; WIPING] && negb b
        then get_next_pc s else pc s)
  /\ _pc_next_override (commit b s)
     = (if member (_fsm_state s) [EXEC; WIPING] && negb b
        then None else _pc_next_override s)
  /\ _err_bits (commit b s) = _err_bits s
  /\ pending_halt (commit b s) = pending_halt s
  /\ imem_size (commit b s) = imem_size s
  /\ _time_to_imem_invalidation (commit b s)
     = match _time_to_imem_invalidation s with
       | Some t => if t - 1 =? 0 then None else Some (t - 1)
       | None => None
       end
  /\ invalidated_imem (commit b s)
     = match _time_to_imem_invalidation s with
       | Some t => if t - 1 =? 0 then true else invalidated_imem s
       | None => invalidated_imem s
       end.
Proof.
  destruct s as [? ? ? ? ? ? ovr ? ? fsm nfsm ? ? ? ? ? ? ? tti ? ? ? ? ? ? ? ? ? ? ? ?].
  unfold commit.
  match goal with
  | |- context [commit_calls ?b ?x] =>
      destruct (commit_calls b x) as [s' calls] eqn:Hc
  end.
  revert Hc.
  destruct fsm, b, tti as [t|];
    try destruct (t - 1 =? 0) eqn:Ht;
    unfold commit_calls;
    lazy beta iota delta [_time_to_imem_invalidation]; rewrite ?Ht;
    evaluate_tests; rewrite ?Ht; intros [= <- <-]; repeat split; reflexivity.
Qed.

Lemma commit_resources (b : bool) (s : State) :
  ext_regs (commit b s) = ext_commit (ext_regs s)
  /\ URND (wsrs (commit b s)) = s_commit (URND (wsrs s))
  /\ gprs (commit b s)
     = (if member (_fsm_state s) [EXEC; WIPING] then s_commit (gprs s) else gprs s)
  /\ wdrs (commit b s)
     = (if member (_fsm_state s) [EXEC; WIPING] then s_commit (wdrs s) else wdrs s)
  /\ dmem (commit b s)
     = (if member (_fsm_state s) [EXEC; WIPING] then s_commit (dmem s) else dmem s)
  /\ loop_stack (commit b s)
     = (if member (_fsm_state s) [EXEC; WIPING]
        then s_commit (loop_stack s) else loop_stack s)
  /\ wsr_others (wsrs (commit b s))
     = (if member (_fsm_state s) [EXEC; WIPING]
        then s_commit (wsr_others (wsrs s)) else wsr_others (wsrs s))
  /\ flags (csrs (commit b s))
     = (if member (_fsm_state s) [EXEC; WIPING]
        then s_commit (flags (csrs s)) else flags (csrs s)).
Proof.
  destruct s as [? ? ? ? ? ? ovr ? ? fsm nfsm ? ? ? ? ? ? ? tti ? ? ? ? ? ? ? ? ? ? ? ?].
  unfold commit.
  match goal with
  | |- context [commit_calls ?b ?x] =>
      destruct (commit_calls b x) as [s' calls] eqn:Hc
  end.
  revert Hc.
  destruct fsm, b, tti as [t|];
    try destruct (t - 1 =? 0) eqn:Ht;
    unfold commit_calls;
    lazy beta iota delta [_time_to_imem_invalidation]; rewrite ?Ht;
    evaluate_tests; intros [= <- <-]; repeat split; reflexivity.
Qed.

Lemma step_control (b : bool) (s : State) :
  _fsm_state (step b s) = _fsm_state s
  /\ _next_fsm_state (step b s) = _next_fsm_state s
  /\ pc (step b s) = pc s
  /\ _pc_next_override (step b s) = _pc_next_override s
  /\ _time_to_imem_invalidation (step b s) = _time_to_imem_invalidation s
  /\ invalidated_imem (step b s) = invalidated_imem s
  /\ _err_bits (step b s)
     = (if b then Z.lor (_err_bits s) (injected_err_bits s) else _err_bits s)
  /\ pending_halt (step b s)
     = pending_halt s || (b && negb (injected_err_bits s =? 0))
  /\ injected_err_bits (step b s) = (if b then 0 else injected_err_bits s).
Proof.
  destruct s as [? ? ? ? ? ? ? ? ? ? ? ? ? ? ? err ph ? ? ? ? ? inj ? ? ? ? ? ? ? ?].
  destruct b, (inj =? 0) eqn:Hi;
    unfold step, take_injected_err_bits;
    lazy beta iota delta [injected_err_bits]; rewrite ?Hi;
    evaluate; rewrite ?Hi; repeat split;
    try reflexivity; try (destruct ph; reflexivity);
    apply Z.eqb_eq in Hi; subst inj; rewrite ?Z.lor_0_r; reflexivity.
Qed.

(** ** The next PC *)

(** X1.  [set_next_pc] fails its assertion exactly on an address that is
    negative, misaligned or beyond the instruction memory; when it returns,
    [get_next_pc] is the address given and the PC itself is untouched. *)
Theorem set_next_pc_contract (v : Z) (s : State) :
  (set_next_pc v s = AssertionError
   <-> ~ (v mod 4 = 0 /\ 0 <= v < imem_size s))
  /\ (forall s', set_next_pc v s = Ok s' ->
        get_next_pc s' = v /\ pc s' = pc s
        /\ v mod 4 = 0 /\ 0 <= v < imem_size s).
Proof.
  pose proof (is_pc_valid_true_iff v s) as Hv.
  unfold set_next_pc.
  destruct (is_pc_valid v s) as [ [|] | ]; cbn.
  - split.
    + split; [discriminate | ]. intros Hn. exfalso. apply Hn, Hv. reflexivity.
    + intros s' [= <-]. split; [reflexivity | split; [reflexivity | ] ].
      apply Hv. reflexivity.
  - split.
    + split; [ | reflexivity]. intros _ Hn. apply Hv in Hn. discriminate.
    + intros s' Hs. discriminate.
  - split.
    + split; [ | reflexivity]. intros _ Hn. apply Hv in Hn. discriminate.
    + intros s' Hs. discriminate.
Qed.

(** X2.  A jump staged with [set_next_pc] during [EXEC] or [WIPING] is
    taken by the next [commit] that is not stalled, after which execution
    falls through from the target; a stalled [commit] keeps both the PC and
    the staged jump. *)
Theorem commit_takes_jump (v : Z) (s s1 : State) :
  set_next_pc v s = Ok s1 ->
  member (_fsm_state s) [EXEC; WIPING] = true ->
  pc (commit false s1) = v
  /\ get_next_pc (commit false s1) = v + 4
  /\ pc (commit true s1) = pc s
  /\ get_next_pc (commit true s1) = v.
Proof.
  intros Hs Hm.
  assert (H1 : s1 = set__pc_next_override (Some v) s).
  { unfold set_next_pc in Hs.
    destruct (is_pc_valid v s) as [ [|] | ]; cbn in Hs;
      [injection Hs as <-; reflexivity | discriminate | discriminate]. }
  subst s1.
  destruct (commit_control false (set__pc_next_override (Some v) s))
    as (_ & _ & _ & Hp & Ho & _).
  destruct (commit_control true (set__pc_next_override (Some v) s))
    as (_ & _ & _ & Hp' & Ho' & _).
  cbn [_fsm_state set__pc_next_override] in Hp, Ho, Hp', Ho'.
  rewrite Hm in Hp, Ho, Hp', Ho'. cbn in Hp, Ho, Hp', Ho'.
  unfold get_next_pc. rewrite Hp, Ho, Hp', Ho'.
  repeat split; reflexivity.
Qed.

(** X3.  [is_pc_valid] fails its assertion exactly on a negative address.
    From a valid PC with no jump staged, the fall-through address is never
    negative or misaligned: it is valid unless the instruction is the last
    one of the instruction memory. *)
Theorem fall_through_validity :
  (forall (v : Z) (s : State), is_pc_valid v s = AssertionError <-> v < 0)
  /\ (forall s : State,
        _pc_next_override s = None ->
        pc s mod 4 = 0 ->
        0 <= pc s < imem_size s ->
        is_pc_valid (get_next_pc s) s = Ok (pc s + 4 <? imem_size s)).
Proof.
  split.
  - intros v s. unfold is_pc_valid, assert_.
    destruct (0 <=? v) eqn:H0; cbn.
    + apply Z.leb_le in H0.
      destruct (negb (Z.land v 3 =? 0)); [ | destruct (v >=? imem_size s)];
        (split; [discriminate | lia]).
    + apply Z.leb_gt in H0. split; [intros _; exact H0 | reflexivity].
  - intros s Ho Ha Hr.
    unfold get_next_pc. rewrite Ho.
    unfold is_pc_valid, assert_.
    rewrite land_3_mod_4, Z.geb_leb.
    replace ((pc s + 4) mod 4) with 0
      by (rewrite <- (Z_mod_plus_full (pc s) 1 4) in Ha; symmetry; exact Ha).
    destruct (0 <=? pc s + 4) eqn:H0; [ | apply Z.leb_gt in H0; lia].
    cbn.
    destruct (imem_size s <=? pc s + 4) eqn:H1; cbn.
    + apply Z.leb_le in H1. f_equal. symmetry. apply Z.ltb_ge. exact H1.
    + apply Z.leb_gt in H1. f_equal. symmetry. apply Z.ltb_lt. exact H1.
Qed.

(** ** The error accumulator *)

(** X4.  [stop_at_end_of_cycle] only adds error bits: the bits of two
    requests are or-ed whatever their order, no bit already set is lost, and
    the halt is requested even when the bits given are zero. *)
Theorem stop_at_end_of_cycle_accumulates (a b : Z) (s : State) :
  stop_at_end_of_cycle a (stop_at_end_of_cycle b s)
  = stop_at_end_of_cycle (Z.lor a b) s
  /\ stop_at_end_of_cycle a (stop_at_end_of_cycle b s)
     = stop_at_end_of_cycle b (stop_at_end_of_cycle a s)
  /\ (forall i : Z,
        Z.testbit (_err_bits (stop_at_end_of_cycle a s)) i
        = Z.testbit (_err_bits s) i || Z.testbit a i)
  /\ pending_halt (stop_at_end_of_cycle 0 s) = true
  /\ _err_bits (stop_at_end_of_cycle 0 s) = _err_bits s.
Proof.
  destruct s as [? ? ? ? ? ? ? ? ? ? ? ? ? ? ? err ? ? ? ? ? ? ? ? ? ? ? ? ? ? ?].
  evaluate.
  split; [f_equal; rewrite <- Z.lor_assoc, (Z.lor_comm b a); reflexivity | ].
  split; [f_equal; rewrite <- !Z.lor_assoc, (Z.lor_comm b a); reflexivity | ].
  split; [intros i; apply Z.lor_spec | ].
  split; [reflexivity | apply Z.lor_0_r].
Qed.

(** X5.  An injected error is folded into the error bits by the first
    [step] that handles injected errors and by no later one; a [step] that
    does not handle them keeps the injection pending and leaves the error
    bits and the halt request alone. *)
Theorem step_folds_injection_once (b : bool) (s : State) :
  _err_bits (step b (step true s)) = Z.lor (_err_bits s) (injected_err_bits s)
  /\ injected_err_bits (step b (step true s)) = 0
  /\ pending_halt (step true s)
     = pending_halt s || negb (injected_err_bits s =? 0)
  /\ _err_bits (step false s) = _err_bits s
  /\ pending_halt (step false s) = pending_halt s
  /\ injected_err_bits (step false s) = injected_err_bits s.
Proof.
  destruct (step_control true s) as (_ & _ & _ & _ & _ & _ & He & Hp & Hi).
  destruct (step_control b (step true s)) as (_ & _ & _ & _ & _ & _ & He' & _ & Hi').
  destruct (step_control false s) as (_ & _ & _ & _ & _ & _ & He0 & Hp0 & Hi0).
  rewrite He', Hi', He, Hi, Hp, He0, Hp0, Hi0.
  repeat split.
  - destruct b; [apply Z.lor_0_r | reflexivity].
  - destruct b; reflexivity.
  - cbn. apply orb_false_r.
Qed.

(** ** The FSM state under the driver *)

Lemma run_fsm (cs : list DriverCall) (s : State) :
  _next_fsm_state (run cs s) = _next_fsm_state s
  /\ _fsm_state (run cs s)
     = (if commits cs =? 0 then _fsm_state s else _next_fsm_state s).
Proof.
  assert (Hc : forall l, 0 <= commits l).
  { induction l as [|[?|?] l IH]; cbn [commits]; lia. }
  revert s. induction cs as [|c cs IH]; intros s.
  - split; reflexivity.
  - cbn [run fold_left]. destruct (IH (drive c s)) as [IHn IHf].
    fold (run cs (drive c s)) in IHn, IHf |- *.
    rewrite IHn, IHf.
    destruct c as [b|b]; cbn [drive commits].
    + destruct (step_control b s) as (Hf & Hn & _). rewrite Hf, Hn.
      split; reflexivity.
    + destruct (commit_control b s) as (Hf & Hn & _). rewrite Hf, Hn.
      split; [reflexivity | ].
      specialize (Hc cs).
      destruct (commits cs =? 0); destruct (1 + commits cs =? 0) eqn:H1;
        try reflexivity; apply Z.eqb_eq in H1; lia.
Qed.

(** X6.  The driver never changes the next FSM state: whatever the
    sequence of [step] and [commit] calls, the next-state field is the one
    it started with, and the FSM state is that field as soon as one [commit]
    has run. *)
Theorem driver_latches_next_state (cs : list DriverCall) (s : State) :
  _next_fsm_state (run cs s) = _next_fsm_state s
  /\ _fsm_state (run cs s)
     = (if commits cs =? 0 then _fsm_state s else _next_fsm_state s).
Proof. exact (run_fsm cs s). Qed.

(** ** What [stop] does to the control fields *)

Lemma stop_control (s s' : State) :
  stop s = Ok s' ->
  _fsm_state s' = _fsm_state s
  /\ pc s' = pc s
  /\ _err_bits s' = _err_bits s
  /\ lock_immediately s' = lock_immediately s
  /\ _next_fsm_state s'
     = (if lock_immediately s then LOCKED
        else if bool_decide (_fsm_state s = EXEC) then PRE_WIPE
        else if member (_fsm_state s) [PRE_WIPE; WIPING] then _next_fsm_state s
        else if member (_init_sec_wipe_state s) [IN_PROGRESS] then _next_fsm_state s
        else if bool_decide (_init_sec_wipe_state s = DONE) then LOCKED
        else _next_fsm_state s)
  /\ pending_halt s'
     = (negb (lock_immediately s)
        && negb (bool_decide (_fsm_state s = EXEC))
        && negb (member (_fsm_state s) [PRE_WIPE; WIPING])
        && member (_init_sec_wipe_state s) [IN_PROGRESS])
  /\ lock_after_wipe s'
     = (if lock_immediately s then lock_after_wipe s
        else if bool_decide (_fsm_state s = EXEC) then stop_should_lock s
        else if member (_fsm_state s) [PRE_WIPE; WIPING] then true
        else lock_after_wipe s)
  /\ wipe_rounds_done s'
     = (if negb (lock_immediately s) && bool_decide (_fsm_state s = EXEC)
        then 0 else wipe_rounds_done s)
  /\ wipe_cycles s' = wipe_cycles s.
Proof.
  destruct s as [? ? ? ? ? ? ? ? ? fsm ? isw ? ? ? err ? ? ? ? ? ? ? li ? sef ? rma ? ? ?].
  destruct li, fsm, isw, (err =? 0) eqn:He;
    unfold stop; lazy beta iota delta [_err_bits]; rewrite He; evaluate;
    try destruct (should_lock err sef rma); evaluate;
    intros Hs; try discriminate Hs;
    injection Hs as <-; repeat split; reflexivity.
Qed.

(** X7.  [stop] never changes the current FSM state, the PC or the error
    bits, and does not clear [lock_immediately]; it moves the next FSM state
    to [LOCKED] under [lock_immediately] (or, outside a run and a wipe, once
    the initial secure wipe is done), to [PRE_WIPE] from [EXEC], and
    nowhere else. *)
Theorem stop_next_state (s s' : State) :
  stop s = Ok s' ->
  _fsm_state s' = _fsm_state s
  /\ pc s' = pc s
  /\ _err_bits s' = _err_bits s
  /\ lock_immediately s' = lock_immediately s
  /\ _next_fsm_state s'
     = (if lock_immediately s then LOCKED
        else if bool_decide (_fsm_state s = EXEC) then PRE_WIPE
        else if member (_fsm_state s) [PRE_WIPE; WIPING] then _next_fsm_state s
        else if member (_init_sec_wipe_state s) [IN_PROGRESS] then _next_fsm_state s
        else if bool_decide (_init_sec_wipe_state s = DONE) then LOCKED
        else _next_fsm_state s).
Proof.
  intros Hs. destruct (stop_control s s' Hs) as (H1 & H2 & H3 & H4 & H5 & _).
  repeat split; assumption.
Qed.

(** X8.  [stop] locks only for a reason: when it returns, it has moved the
    next FSM state to [LOCKED], or set [lock_after_wipe], only if
    [should_lock] holds of the error bits, the policy flag and the RMA
    request. *)
Theorem stop_locks_only_with_reason (s s' : State) :
  stop s = Ok s' ->
  (_next_fsm_state s' = LOCKED ->
   _next_fsm_state s = LOCKED
   \/ should_lock (_err_bits s) (software_errs_fatal s) (rma_req s) = true)
  /\ (lock_after_wipe s' = true ->
      lock_after_wipe s = true
      \/ should_lock (_err_bits s) (software_errs_fatal s) (rma_req s) = true).
Proof.
  intros Hs.
  destruct (stop_control s s' Hs) as (_ & _ & _ & _ & Hn & _ & Hl & _).
  assert (Hr : stop s <> AssertionError) by (rewrite Hs; discriminate).
  assert (Ha : stop_asserts_lock s = true ->
               should_lock (_err_bits s) (software_errs_fatal s) (rma_req s) = true).
  { intros Ha.
    destruct (should_lock (_err_bits s) (software_errs_fatal s) (rma_req s)) eqn:Hsl;
      [reflexivity | ].
    exfalso. apply Hr. apply stop_raises_iff. split; [exact Ha | exact Hsl]. }
  rewrite Hn, Hl. clear Hn Hl Hs Hr.
  unfold stop_asserts_lock in Ha. unfold stop_should_lock.
  destruct (lock_immediately s), (_fsm_state s), (_init_sec_wipe_state s);
    cbn in Ha |- *; split; intros H; try discriminate H;
    (left; exact H) || (right; exact H) || (right; apply Ha; reflexivity).
Qed.

(** X9.  [stop_if_pending_halt] does nothing and answers False when no halt
    is pending, and otherwise answers True with the state [stop] returns.
    The halt request is cleared by [stop], except that it is raised again
    when the call comes outside a run and a wipe while the initial secure
    wipe is in progress, so that the stop is repeated. *)
Theorem stop_if_pending_halt_contract (s : State) :
  (pending_halt s = false -> stop_if_pending_halt s = Ok (false, s))
  /\ (forall s', pending_halt s = true -> stop s = Ok s' ->
        stop_if_pending_halt s = Ok (true, s')
        /\ pending_halt s'
           = (negb (lock_immediately s)
              && negb (member (_fsm_state s) [EXEC; PRE_WIPE; WIPING])
              && bool_decide (_init_sec_wipe_state s = IN_PROGRESS)))
  /\ (pending_halt s = true -> stop s = AssertionError ->
      stop_if_pending_halt s = AssertionError).
Proof.
  unfold stop_if_pending_halt.
  split; [intros ->; reflexivity | split].
  - intros s' Hp Hs. rewrite Hp, Hs. split; [reflexivity | ].
    destruct (stop_control s s' Hs) as (_ & _ & _ & _ & _ & Hph & _).
    rewrite Hph.
    destruct (lock_immediately s), (_fsm_state s), (_init_sec_wipe_state s);
      reflexivity.
  - intros Hp Hs. rewrite Hp, Hs. reflexivity.
Qed.

(** ** IMEM invalidation under the driver *)

Lemma run_cons (c : DriverCall) (cs : list DriverCall) (s : State) :
  run (c :: cs) s = run cs (drive c s).
Proof. reflexivity. Qed.

Lemma commits_nonneg (cs : list DriverCall) : 0 <= commits cs.
Proof. induction cs as [|[?|?] cs IH]; cbn [commits]; lia. Qed.

Lemma drive_imem (c : DriverCall) (s : State) :
  _time_to_imem_invalidation (drive c s)
  = match c, _time_to_imem_invalidation s with
    | Commit _, Some t => if t - 1 =? 0 then None else Some (t - 1)
    | Commit _, None => None
    | Step _, o => o
    end
  /\ invalidated_imem (drive c s)
     = match c, _time_to_imem_invalidation s with
       | Commit _, Some t => if t - 1 =? 0 then true else invalidated_imem s
       | _, _ => invalidated_imem s
       end.
Proof.
  destruct c as [b|b]; cbn [drive].
  - destruct (step_control b s) as (_ & _ & _ & _ & Ht & Hi & _).
    rewrite Ht, Hi. destruct (_time_to_imem_invalidation s); split; reflexivity.
  - destruct (commit_control b s) as (_ & _ & _ & _ & _ & _ & _ & _ & Ht & Hi).
    rewrite Ht, Hi. destruct (_time_to_imem_invalidation s); split; reflexivity.
Qed.

Lemma run_imem_idle (cs : list DriverCall) (s : State) :
  _time_to_imem_invalidation s = None ->
  _time_to_imem_invalidation (run cs s) = None
  /\ invalidated_imem (run cs s) = invalidated_imem s.
Proof.
  revert s. induction cs as [|c cs IH]; intros s Hn; [split; [exact Hn | reflexivity] | ].
  rewrite run_cons.
  destruct (drive_imem c s) as [Ht Hi]. rewrite Hn in Ht, Hi.
  assert (Ht' : _time_to_imem_invalidation (drive c s) = None)
    by (rewrite Ht; destruct c; reflexivity).
  assert (Hi' : invalidated_imem (drive c s) = invalidated_imem s)
    by (rewrite Hi; destruct c; reflexivity).
  destruct (IH _ Ht') as [IH1 IH2]. rewrite IH1, IH2, Hi'. split; reflexivity.
Qed.

Lemma run_countdown (cs : list DriverCall) (s : State) (t : Z) :
  1 <= t ->
  _time_to_imem_invalidation s = Some t ->
  _time_to_imem_invalidation (run cs s)
  = (if commits cs <? t then Some (t - commits cs) else None)
  /\ invalidated_imem (run cs s)
     = (if t <=? commits cs then true else invalidated_imem s).
Proof.
  revert s t. induction cs as [|c cs IH]; intros s t Ht Hs.
  - cbn [run fold_left commits].
    destruct (Z.ltb_spec 0 t); [ | lia]. destruct (Z.leb_spec t 0); [lia | ].
    rewrite Z.sub_0_r. split; [exact Hs | reflexivity].
  - rewrite run_cons. pose proof (commits_nonneg cs) as Hc.
    destruct (drive_imem c s) as [Hd Hi]. rewrite Hs in Hd, Hi.
    destruct c as [b|b]; cbn [commits].
    + destruct (IH _ t Ht Hd) as [IH1 IH2]. rewrite IH1, IH2, Hi.
      split; reflexivity.
    + destruct (t - 1 =? 0) eqn:H1.
      * apply Z.eqb_eq in H1.
        destruct (run_imem_idle cs _ Hd) as [I1 I2]. rewrite I1, I2, Hi.
        destruct (Z.ltb_spec (1 + commits cs) t); [lia | ].
        destruct (Z.leb_spec t (1 + commits cs)); [ | lia].
        split; reflexivity.
      * apply Z.eqb_neq in H1.
        destruct (IH _ (t - 1) ltac:(lia) Hd) as [IH1 IH2]. rewrite IH1, IH2, Hi.
        destruct (Z.ltb_spec (commits cs) (t - 1)),
                 (Z.ltb_spec (1 + commits cs) t); try lia;
          destruct (Z.leb_spec (t - 1) (commits cs)),
                   (Z.leb_spec t (1 + commits cs)); try lia;
          split; try reflexivity.
        f_equal. lia.
Qed.

(** X10.  After [invalidate_imem], the instruction memory becomes
    unreadable at the second [commit], however many [step] calls come in
    between: over any sequence of driver calls the flag is set exactly when
    the sequence holds two commits or more, and until then the counter
    shows how many are left. *)
Theorem invalidation_counts_commits (cs : list DriverCall) (s : State) :
  invalidated_imem (run cs (invalidate_imem s))
  = (if 2 <=? commits cs then true else invalidated_imem s)
  /\ _time_to_imem_invalidation (run cs (invalidate_imem s))
     = (if commits cs <? 2 then Some (2 - commits cs) else None).
Proof.
  destruct (run_countdown cs (invalidate_imem s) 2 ltac:(lia) eq_refl) as [Ht Hi].
  split; [exact Hi | exact Ht].
Qed.

(** X11.  [clear_imem_invalidation] cancels an invalidation that is still
    counting down: no later [step] or [commit] makes the instruction memory
    unreadable.  And once the memory is unreadable, no [step] or [commit]
    makes it readable again. *)
Theorem invalidation_cancel_and_persist :
  (forall (cs : list DriverCall) (s : State),
      invalidated_imem (run cs (clear_imem_invalidation (invalidate_imem s))) = false
      /\ _time_to_imem_invalidation
           (run cs (clear_imem_invalidation (invalidate_imem s))) = None)
  /\ (forall (cs : list DriverCall) (s : State),
        invalidated_imem s = true -> invalidated_imem (run cs s) = true).
Proof.
  split.
  - intros cs s.
    destruct (run_imem_idle cs (clear_imem_invalidation (invalidate_imem s)) eq_refl)
      as [Ht Hi].
    split; [rewrite Hi; reflexivity | exact Ht].
  - intros cs. induction cs as [|c cs IH]; intros s Hs; [exact Hs | ].
    rewrite run_cons. apply IH.
    destruct (drive_imem c s) as [_ Hi]. rewrite Hi, Hs.
    destruct c, (_time_to_imem_invalidation s) as [t|]; try reflexivity.
    destruct (t - 1 =? 0); reflexivity.
Qed.

(** ** set_fsm_state *)

(** X12.  A state set with [set_fsm_state] becomes the FSM state at the
    next [commit], not before; the count of cycles in the state restarts at
    0 when the state changes and goes up by one when it does not; and the
    wipe countdown is armed at 68, again if need be, exactly when the state
    set is [WIPING]. *)
Theorem set_fsm_state_takes_effect_at_commit (st : FsmState) (b : bool) (s : State) :
  _fsm_state (set_fsm_state st s) = _fsm_state s
  /\ _fsm_state (commit b (set_fsm_state st s)) = st
  /\ cycles_in_this_state (commit b (set_fsm_state st s))
     = (if bool_decide (st = _fsm_state s)
        then cycles_in_this_state s + 1 else 0)
  /\ wipe_cycles (set_fsm_state st s)
     = (if bool_decide (st = WIPING) then _WIPE_CYCLES else wipe_cycles s).
Proof.
  destruct (commit_control b (set_fsm_state st s)) as (Hf & _ & Hc & _).
  rewrite Hf, Hc.
  destruct s. destruct st; repeat split; reflexivity.
Qed.

(** ** loop_step and post_insn *)

Lemma set_next_pc_cases (v : Z) (s : State) :
  (v mod 4 = 0 /\ 0 <= v < imem_size s
   /\ set_next_pc v s = Ok (set__pc_next_override (Some v) s))
  \/ (~ (v mod 4 = 0 /\ 0 <= v < imem_size s)
      /\ set_next_pc v s = AssertionError).
Proof.
  pose proof (is_pc_valid_true_iff v s) as Hv.
  unfold set_next_pc.
  destruct (is_pc_valid v s) as [ [|] | ]; cbn.
  - left. destruct (proj1 Hv eq_refl) as [H1 H2]. repeat split; assumption || lia.
  - right. split; [ | reflexivity]. intros Hn. apply Hv in Hn. discriminate.
  - right. split; [ | reflexivity]. intros Hn. apply Hv in Hn. discriminate.
Qed.

Lemma is_pc_valid_raises_iff (v : Z) (s : State) :
  is_pc_valid v s = AssertionError <-> v < 0.
Proof.
  unfold is_pc_valid, assert_.
  destruct (0 <=? v) eqn:H0; cbn.
  - apply Z.leb_le in H0.
    destruct (negb (Z.land v 3 =? 0)); [ | destruct (v >=? imem_size s)];
      (split; [discriminate | lia]).
  - apply Z.leb_gt in H0. split; [intros _; exact H0 | reflexivity].
Qed.

Lemma is_pc_valid_imem_size (v : Z) (s1 s2 : State) :
  imem_size s1 = imem_size s2 -> is_pc_valid v s1 = is_pc_valid v s2.
Proof. unfold is_pc_valid. intros ->. reflexivity. Qed.

Lemma loop_step_cases (loop_warps : gmap Z Z) (s : State) :
  loop_step loop_warps s
  = match loop_stack_step E (loop_stack s) (pc s) loop_warps with
    | (Some back_pc, stack) => set_next_pc back_pc (set_loop_stack stack s)
    | (None, stack) => Ok (set_loop_stack stack s)
    end.
Proof.
  unfold loop_step.
  destruct (loop_stack_step E (loop_stack s) (pc s) loop_warps) as [[b|] stack];
    reflexivity.
Qed.

(** X13.  [loop_step] stores the loop stack as the step left it.  When the
    loop stack asks to go back to an address, the address must be a valid
    PC, or the assertion of [set_next_pc] fails; it then becomes the next
    PC, replacing a jump staged before.  When it asks for nothing, the next
    PC is as it was. *)
Theorem loop_step_next_pc
    (loop_warps : gmap Z Z) (s : State) (back : option Z) (stack : Staged (LoopFrames E)) :
  loop_stack_step E (loop_stack s) (pc s) loop_warps = (back, stack) ->
  (loop_step loop_warps s = AssertionError
   <-> exists b, back = Some b /\ ~ (b mod 4 = 0 /\ 0 <= b < imem_size s))
  /\ (forall s', loop_step loop_warps s = Ok s' ->
        loop_stack s' = stack
        /\ pc s' = pc s
        /\ get_next_pc s' = match back with
                            | Some b => b
                            | None => get_next_pc s
                            end).
Proof.
  intros Hl. rewrite loop_step_cases, Hl.
  destruct back as [b|].
  - destruct (set_next_pc_cases b (set_loop_stack stack s))
      as [(Ha & Hr & Hs) | (Hn & Hs)]; rewrite Hs; cbn [imem_size set_loop_stack] in *.
    + split.
      * split; [discriminate | ]. intros (b' & [= <-] & Hn). tauto.
      * intros s' [= <-]. repeat split.
    + split.
      * split; [ | reflexivity]. intros _. exists b. split; [reflexivity | exact Hn].
      * intros s' Hs'. discriminate.
  - split.
    + split; [discriminate | ]. intros (b' & Hb & _). discriminate.
    + intros s' [= <-]. repeat split.
Qed.

Lemma post_insn_update_fields (loop_warps : gmap Z Z) (s mid : State) :
  post_insn_update loop_warps s = Ok mid ->
  pc mid = pc s
  /\ imem_size mid = imem_size s
  /\ _fsm_state mid = _fsm_state s
  /\ ext_regs mid = increment_insn_cnt (ext_regs s)
  /\ (exists extra : Z, _err_bits mid = Z.lor (_err_bits s) extra)
  /\ pending_halt mid = pending_halt s || negb (_err_bits mid =? 0)
  /\ get_next_pc mid
     = match (loop_stack_step E (loop_stack s) (pc s) loop_warps).1 with
       | Some b => b
       | None => get_next_pc s
       end.
Proof.
  unfold post_insn_update. rewrite loop_step_cases.
  cbn [loop_stack pc set_ext_regs].
  destruct (loop_stack_step E (loop_stack s) (pc s) loop_warps) as [back stack].
  cbn [fst].
  set (s0 := set_loop_stack stack (set_ext_regs (increment_insn_cnt (ext_regs s)) s)).
  assert (Hs1 : forall s1 : State,
             pc s1 = pc s -> imem_size s1 = imem_size s ->
             _fsm_state s1 = _fsm_state s ->
             ext_regs s1 = increment_insn_cnt (ext_regs s) ->
             _err_bits s1 = _err_bits s -> pending_halt s1 = pending_halt s ->
             forall n, get_next_pc s1 = n ->
             forall m,
               Ok (let s2 := set_gprs (gprs_post_insn E (gprs s1)) s1 in
                   let s3 :=
                     set__err_bits
                       (Z.lor (_err_bits s2)
                          (Z.lor (gprs_err_bits E (gprs s2))
                             (loop_stack_err_bits E (loop_stack s2)))) s2 in
                   if negb (_err_bits s3 =? 0) then set_pending_halt true s3 else s3)
               = Ok m ->
               pc m = pc s /\ imem_size m = imem_size s
               /\ _fsm_state m = _fsm_state s
               /\ ext_regs m = increment_insn_cnt (ext_regs s)
               /\ (exists extra : Z, _err_bits m = Z.lor (_err_bits s) extra)
               /\ pending_halt m = pending_halt s || negb (_err_bits m =? 0)
               /\ get_next_pc m = n).
  { intros s1.
    generalize (pc s) (imem_size s) (_fsm_state s)
      (increment_insn_cnt (ext_regs s)) (_err_bits s) (pending_halt s).
    intros p isz f er e ph H1 H2 H3 H4 H5 H6 n H7 m [= <-].
    destruct s1. cbn in H1, H2, H3, H4, H5, H6.
    unfold get_next_pc in H7. cbn in H7. subst.
    evaluate.
    match goal with
    | |- context [if ?c then _ else _] => destruct c eqn:Hc
    end; evaluate; rewrite ?Hc;
      (repeat split; try reflexivity; try (eexists; reflexivity));
      destruct ph; reflexivity. }
  destruct back as [b|].
  - destruct (set_next_pc_cases b s0) as [(Ha & Hr & Hs) | (Hn & Hs)];
      rewrite Hs; cbn [mbind result_bind]; [ | discriminate].
    apply Hs1; reflexivity.
  - cbn [mbind result_bind mret result_ret]. apply Hs1; reflexivity.
Qed.

Lemma post_insn_cases (loop_warps : gmap Z Z) (s s' : State) :
  post_insn loop_warps s = Ok s' ->
  exists mid,
    post_insn_update loop_warps s = Ok mid
    /\ (s' = mid
        \/ (pending_halt mid = false
            /\ s' = set_pending_halt true
                      (set__err_bits
                         (Z.lor (_err_bits mid) (ErrBits_BAD_INSN_ADDR E)) mid))).
Proof.
  unfold post_insn.
  destruct (post_insn_update loop_warps s) as [mid|]; [ | discriminate].
  cbn [mbind result_bind]. unfold post_insn_check.
  destruct (is_pc_valid (get_next_pc mid) mid) as [v|]; [ | discriminate].
  cbn [mbind result_bind].
  intros Hs. exists mid. split; [reflexivity | ].
  destruct v, (pending_halt mid); cbn in Hs; injection Hs as <-; auto.
Qed.

(** X14.  When [post_insn] returns, no error bit that was set has been
    lost, a halt that was pending is still pending, a nonzero error
    accumulator always comes with a pending halt, the increment of INSN_CNT
    is staged, and neither the PC nor the FSM state has moved. *)
Theorem post_insn_keeps_errors (loop_warps : gmap Z Z) (s s' : State) :
  post_insn loop_warps s = Ok s' ->
  (forall i : Z, Z.testbit (_err_bits s) i = true -> Z.testbit (_err_bits s') i = true)
  /\ (pending_halt s = true -> pending_halt s' = true)
  /\ (_err_bits s' <> 0 -> pending_halt s' = true)
  /\ get_reg "INSN_CNT" (ext_regs s')
     = s_record (committed (get_reg "INSN_CNT" (ext_regs s)) + 1)
         (get_reg "INSN_CNT" (ext_regs s))
  /\ pc s' = pc s
  /\ _fsm_state s' = _fsm_state s.
Proof.
  intros Hs.
  destruct (post_insn_cases _ _ _ Hs) as (mid & Hu & Hc).
  destruct (post_insn_update_fields _ _ _ Hu)
    as (Hpc & _ & Hf & He & (extra & Herr) & Hph & _).
  assert (Hreg : get_reg "INSN_CNT" (ext_regs mid)
                 = s_record (committed (get_reg "INSN_CNT" (ext_regs s)) + 1)
                     (get_reg "INSN_CNT" (ext_regs s))).
  { rewrite He. unfold increment_insn_cnt. apply get_reg_write_eq. }
  destruct Hc as [-> | (Hfalse & ->)].
  - repeat split; try assumption.
    + intros i Hi. rewrite Herr, Z.lor_spec, Hi. reflexivity.
    + intros Hp. rewrite Hph, Hp. reflexivity.
    + intros Hn. rewrite Hph. apply Z.eqb_neq in Hn. rewrite Hn.
      apply orb_true_r.
  - cbn. repeat split; try assumption.
    intros i Hi. rewrite Herr, !Z.lor_spec, Hi. reflexivity.
Qed.

(** X15.  The check of the next PC is squashed when a halt is already
    pending: an instruction that stops the run at the top of the instruction
    memory gets no BAD_INSN_ADDR; and so does an instruction whose next PC
    is valid.  In both cases [post_insn] returns what the update of the
    counter, the loop stack and the error bits left. *)
Theorem post_insn_check_squashed (loop_warps : gmap Z Z) (s mid : State) :
  post_insn_update loop_warps s = Ok mid ->
  0 <= get_next_pc mid ->
  pending_halt mid = true \/ is_pc_valid (get_next_pc mid) mid = Ok true ->
  post_insn loop_warps s = Ok mid.
Proof.
  intros Hu Hn Hc. unfold post_insn. rewrite Hu. cbn [mbind result_bind].
  unfold post_insn_check.
  destruct (is_pc_valid (get_next_pc mid) mid) as [v|] eqn:Hv.
  - cbn [mbind result_bind].
    destruct Hc as [Hp | Ht].
    + rewrite Hp. destruct v; reflexivity.
    + injection Ht as ->. reflexivity.
  - apply is_pc_valid_raises_iff in Hv. lia.
Qed.

(** X16.  [post_insn] fails an assertion in two cases only: the loop stack
    asks to go back to an address that is not a valid PC, or it asks for
    nothing and the next PC is negative. *)
Theorem post_insn_raises_iff (loop_warps : gmap Z Z) (s : State) :
  post_insn loop_warps s = AssertionError
  <-> match (loop_stack_step E (loop_stack s) (pc s) loop_warps).1 with
      | Some b => ~ (b mod 4 = 0 /\ 0 <= b < imem_size s)
      | None => get_next_pc s < 0
      end.
Proof.
  destruct (post_insn_update loop_warps s) as [mid|] eqn:Hu.
  - destruct (post_insn_update_fields _ _ _ Hu) as (_ & Hi & _ & _ & _ & _ & Hn).
    assert (Hp : post_insn loop_warps s = AssertionError <-> get_next_pc mid < 0).
    { unfold post_insn. rewrite Hu. cbn [mbind result_bind]. unfold post_insn_check.
      rewrite <- (is_pc_valid_raises_iff (get_next_pc mid) mid).
      destruct (is_pc_valid (get_next_pc mid) mid) as [v|]; cbn [mbind result_bind].
      - destruct (negb v && negb (pending_halt mid)); split; discriminate.
      - split; reflexivity. }
    rewrite Hp, Hn. clear Hp Hn.
    revert Hu. unfold post_insn_update. rewrite loop_step_cases.
    cbn [loop_stack pc set_ext_regs].
    destruct (loop_stack_step E (loop_stack s) (pc s) loop_warps) as [[b|] stack];
      cbn [fst]; [ | tauto].
    destruct (set_next_pc_cases b
                (set_loop_stack stack
                   (set_ext_regs (increment_insn_cnt (ext_regs s)) s)))
      as [(Ha & Hr & Hs) | (Hnv & Hs)]; rewrite Hs; cbn [mbind result_bind];
      [ | discriminate].
    cbn [imem_size set_loop_stack set_ext_regs] in Hr.
    intros _. split; [lia | tauto].
  - assert (Hp : post_insn loop_warps s = AssertionError)
      by (unfold post_insn; rewrite Hu; reflexivity).
    rewrite Hp. split; [intros _ | reflexivity].
    revert Hu. unfold post_insn_update. rewrite loop_step_cases.
    cbn [loop_stack pc set_ext_regs].
    destruct (loop_stack_step E (loop_stack s) (pc s) loop_warps) as [[b|] stack];
      cbn [fst].
    + destruct (set_next_pc_cases b
                  (set_loop_stack stack
                     (set_ext_regs (increment_insn_cnt (ext_regs s)) s)))
        as [(Ha & Hr & Hs) | (Hnv & Hs)]; rewrite Hs; cbn [mbind result_bind];
        [discriminate | ].
      cbn [imem_size set_loop_stack set_ext_regs] in Hnv. intros _. exact Hnv.
    + cbn [mbind result_bind mret result_ret]. discriminate.
Qed.

(** ** A stop and the commit that follows *)

Lemma stop_exec_failed (s s' : State) :
  _err_bits s <> 0 ->
  _fsm_state s = EXEC ->
  stop s = Ok s' ->
  gprs s' = s_abort (gprs s)
  /\ wdrs s' = s_abort (wdrs s)
  /\ dmem s' = s_abort (dmem s)
  /\ loop_stack s' = s_abort (loop_stack s)
  /\ URND (wsrs s') = s_abort (URND (wsrs s))
  /\ wsr_others (wsrs s') = s_abort (wsr_others (wsrs s))
  /\ flags (csrs s') = s_abort (flags (csrs s))
  /\ _pc_next_override s' = None
  /\ get_reg "INSN_CNT" (ext_regs s') = s_abort (get_reg "INSN_CNT" (ext_regs s))
  /\ pending (get_reg "ERR_BITS" (ext_regs s')) = Some (_err_bits s).
Proof.
  intros He Hf. apply Z.eqb_neq in He.
  destruct s as [? ? ? ? ? ? ? ? ? fsm ? isw ? ? ? err ? ? ? ? ? ? ? li ? sef ? rma ? ? ?].
  cbn in He, Hf. subst fsm.
  destruct li;
    unfold stop; lazy beta iota delta [_err_bits]; rewrite He; evaluate;
    try destruct (should_lock err sef rma); evaluate;
    intros Hs; try discriminate Hs;
    injection Hs as <-; repeat split; evaluate; regs_simpl; reflexivity.
Qed.

Lemma stop_exec_clean (s s' : State) :
  _err_bits s = 0 ->
  lock_immediately s = false ->
  _fsm_state s = EXEC ->
  stop s = Ok s' ->
  gprs s' = gprs s
  /\ wdrs s' = wdrs s
  /\ dmem s' = dmem s
  /\ loop_stack s' = loop_stack s
  /\ wsrs s' = wsrs s
  /\ csrs s' = csrs s
  /\ _pc_next_override s' = _pc_next_override s
  /\ get_reg "INSN_CNT" (ext_regs s') = get_reg "INSN_CNT" (ext_regs s)
  /\ pending (get_reg "ERR_BITS" (ext_regs s')) = Some 0
  /\ pending (get_reg "STOP_PC" (ext_regs s')) = Some (pc s)
  /\ pending (get_reg "INTR_STATE" (ext_regs s'))
     = Some (Z.lor (s_read (get_reg "INTR_STATE" (ext_regs s))) (Z.shiftl 1 0)).
Proof.
  intros He Hl Hf.
  destruct s as [? ? ? ? ? ? ? ? ? fsm ? isw ? ? ? err ? ? ? ? ? ? ? li ? sef ? rma ? ? ?].
  cbn in He, Hl, Hf. subst fsm li err.
  unfold stop; lazy beta iota delta [_err_bits].
  change (0 =? 0) with true. evaluate.
  intros Hs. injection Hs as <-.
  repeat split; evaluate; regs_simpl; reflexivity.
Qed.

Lemma stop_lock_status (s s' : State) :
  lock_immediately s
  || (negb (member (_fsm_state s) [EXEC; PRE_WIPE; WIPING])
      && bool_decide (_init_sec_wipe_state s = DONE)) = true ->
  stop s = Ok s' ->
  pending (get_reg "STATUS" (ext_regs s')) = Some (Status_LOCKED E).
Proof.
  destruct s as [? ? ? ? ? ? ? ? ? fsm ? isw ? ? ? err ? ? ? ? ? ? ? li ? sef ? rma ? ? ?].
  destruct li, fsm, isw; intros Hc; lazy in Hc; try discriminate Hc; clear Hc;
    destruct (err =? 0) eqn:He;
    unfold stop; lazy beta iota delta [_err_bits]; rewrite He; evaluate;
    try destruct (should_lock err sef rma); evaluate;
    intros Hs; try discriminate Hs;
    injection Hs as <-; evaluate; regs_simpl; reflexivity.
Qed.

(** X17.  An instruction that fails leaves no trace.  After [stop] on a
    failed instruction and the [commit] of that cycle, every register file,
    the memory, the loop stack and the flags hold what was committed before
    the instruction, with nothing staged; the instruction is not counted in
    INSN_CNT; a jump it staged is dropped, so the PC moves on by 4; and
    ERR_BITS shows the error bits. *)
Theorem failed_insn_leaves_no_trace (s s' : State) (b : bool) :
  _err_bits s <> 0 ->
  _fsm_state s = EXEC ->
  stop s = Ok s' ->
  gprs (commit b s') = mkStaged (committed (gprs s)) None
  /\ wdrs (commit b s') = mkStaged (committed (wdrs s)) None
  /\ dmem (commit b s') = mkStaged (committed (dmem s)) None
  /\ loop_stack (commit b s') = mkStaged (committed (loop_stack s)) None
  /\ URND (wsrs (commit b s')) = mkStaged (committed (URND (wsrs s))) None
  /\ wsr_others (wsrs (commit b s')) = mkStaged (committed (wsr_others (wsrs s))) None
  /\ flags (csrs (commit b s')) = mkStaged (committed (flags (csrs s))) None
  /\ get_reg "INSN_CNT" (ext_regs (commit b s'))
     = mkStaged (committed (get_reg "INSN_CNT" (ext_regs s))) None
  /\ committed (get_reg "ERR_BITS" (ext_regs (commit b s'))) = _err_bits s
  /\ pc (commit false s') = pc s + 4.
Proof.
  intros He Hf Hs.
  destruct (stop_exec_failed s s' He Hf Hs)
    as (Hg & Hw & Hd & Hl & Hu & Ho & Hfl & Hov & Hic & Heb).
  destruct (stop_control s s' Hs) as (Hf' & Hpc & _).
  destruct (commit_resources b s')
    as (Ce & Cu & Cg & Cw & Cd & Cl & Co & Cf).
  destruct (commit_control false s') as (_ & _ & _ & Cp & _).
  rewrite Hf', Hf in Cg, Cw, Cd, Cl, Co, Cf, Cp. cbn [member existsb] in *.
  rewrite Ce, Cu, Cg, Cw, Cd, Cl, Co, Cf, Cp.
  rewrite Hg, Hw, Hd, Hl, Hu, Ho, Hfl.
  rewrite !get_reg_commit, Hic.
  unfold get_next_pc. rewrite Hov, Hpc.
  repeat split; try reflexivity.
  destruct (get_reg "ERR_BITS" (ext_regs s')) as [c p]. cbn in Heb. subst p.
  reflexivity.
Qed.

(** X18.  An instruction that ends the run cleanly keeps its results.
    After [stop] with no error bit during [EXEC] and the [commit] of that
    cycle, the changes the instruction staged on the registers are
    committed, the instruction is counted, the FSM is in [PRE_WIPE], and the
    done bit, the zero ERR_BITS and the stop PC are visible. *)
Theorem clean_stop_commits_results (s s' : State) (b : bool) :
  _err_bits s = 0 ->
  lock_immediately s = false ->
  _fsm_state s = EXEC ->
  stop s = Ok s' ->
  _fsm_state (commit b s') = PRE_WIPE
  /\ gprs (commit b s') = mkStaged (s_read (gprs s)) None
  /\ wdrs (commit b s') = mkStaged (s_read (wdrs s)) None
  /\ dmem (commit b s') = mkStaged (s_read (dmem s)) None
  /\ committed (get_reg "INSN_CNT" (ext_regs (commit b s')))
     = s_read (get_reg "INSN_CNT" (ext_regs s))
  /\ committed (get_reg "ERR_BITS" (ext_regs (commit b s'))) = 0
  /\ committed (get_reg "STOP_PC" (ext_regs (commit b s'))) = pc s
  /\ Z.testbit (committed (get_reg "INTR_STATE" (ext_regs (commit b s')))) 0 = true.
Proof.
  intros He Hli Hf Hs.
  destruct (stop_exec_clean s s' He Hli Hf Hs)
    as (Hg & Hw & Hd & _ & _ & _ & _ & Hic & Heb & Hsp & Hin).
  destruct (stop_control s s' Hs) as (Hf' & _ & _ & _ & Hn & _).
  destruct (commit_resources b s') as (Ce & _ & Cg & Cw & Cd & _).
  destruct (commit_control b s') as (Cf & _).
  rewrite Hf', Hf in Cg, Cw, Cd. cbn [member existsb] in *.
  rewrite Cf, Hn, Hli, Hf, Ce, Cg, Cw, Cd, Hg, Hw, Hd.
  rewrite !get_reg_commit, Hic.
  repeat split; try reflexivity.
  - destruct (get_reg "ERR_BITS" (ext_regs s')) as [c p]. cbn in Heb. subst p.
    reflexivity.
  - destruct (get_reg "STOP_PC" (ext_regs s')) as [c p]. cbn in Hsp. subst p.
    reflexivity.
  - destruct (get_reg "INTR_STATE" (ext_regs s')) as [c p]. cbn in Hin. subst p.
    change (Z.testbit (Z.lor (s_read (get_reg "INTR_STATE" (ext_regs s)))
                         (Z.shiftl 1 0)) 0 = true).
    rewrite Z.lor_spec. apply orb_true_r.
Qed.

(** X19.  A stop that locks does so for good.  When [stop] returns under
    [lock_immediately], or outside a run and a wipe once the initial secure
    wipe is done, the next [commit] puts the FSM in [LOCKED] and makes
    STATUS read LOCKED, and no later [step] or [commit] leaves [LOCKED]. *)
Theorem stop_lock_is_final (s s' : State) (b : bool) (cs : list DriverCall) :
  lock_immediately s
  || (negb (member (_fsm_state s) [EXEC; PRE_WIPE; WIPING])
      && bool_decide (_init_sec_wipe_state s = DONE)) = true ->
  stop s = Ok s' ->
  committed (get_reg "STATUS" (ext_regs (commit b s'))) = Status_LOCKED E
  /\ _fsm_state (run cs (commit b s')) = LOCKED
  /\ _next_fsm_state (run cs (commit b s')) = LOCKED.
Proof.
  intros Hc Hs.
  pose proof (stop_lock_status s s' Hc Hs) as Hst.
  destruct (stop_control s s' Hs) as (_ & _ & _ & _ & Hn & _).
  assert (Hn' : _next_fsm_state s' = LOCKED).
  { rewrite Hn. clear - Hc.
    destruct (lock_immediately s), (_fsm_state s), (_init_sec_wipe_state s);
      cbn in Hc |- *; reflexivity || discriminate. }
  destruct (commit_resources b s') as (Ce & _).
  destruct (commit_control b s') as (Cf & Cn & _).
  destruct (run_fsm cs (commit b s')) as (Rn & Rf).
  rewrite Rn, Rf, Cf, Cn, Hn', Ce, get_reg_commit.
  split; [ | split; [destruct (commits cs =? 0); reflexivity | reflexivity] ].
  destruct (get_reg "STATUS" (ext_regs s')) as [c p]. cbn in Hst. subst p.
  reflexivity.
Qed.

(** ** The URND seed *)

(** X20.  Whatever integer the URND client delivers, the seed staged by
    [urnd_completed] is made of four words below 2^64, and it depends on the
    low 256 bits of the value only: the bits above are dropped without an
    error. *)
Theorem urnd_seed_words
    (s s' : State) (v : Z) (retry f r : bool) (cl : EdnClient E) :
  edn_cdc_complete E (_urnd_client s) = (Some v, retry, f, r, cl) ->
  urnd_completed s = Ok s' ->
  exists w0 w1 w2 w3 : Z,
    pending (URND (wsrs s')) = Some [w0; w1; w2; w3]
    /\ 0 <= w0 < 2 ^ 64 /\ 0 <= w1 < 2 ^ 64
    /\ 0 <= w2 < 2 ^ 64 /\ 0 <= w3 < 2 ^ 64
    /\ w0 + 2 ^ 64 * w1 + 2 ^ 128 * w2 + 2 ^ 192 * w3 = v mod 2 ^ 256
    /\ _urnd_client s' = cl.
Proof.
  intros Hc. unfold urnd_completed. rewrite Hc.
  destruct retry; cbn [negb assert_ mbind result_bind]; [discriminate | ].
  intros [= <-].
  exists (v mod 2 ^ 64), ((v / 2 ^ 64) mod 2 ^ 64),
    ((v / 2 ^ 128) mod 2 ^ 64), ((v / 2 ^ 192) mod 2 ^ 64).
  assert (H64 : 0 < 2 ^ 64) by (apply Z.pow_pos_nonneg; lia).
  split.
  { cbn [wsrs set_wsrs URND URND_set_seed pending s_record map].
    rewrite !quarter_word by lia.
    change (64 * 0) with 0. change (64 * 1) with 64.
    change (64 * 2) with 128. change (64 * 3) with 192.
    rewrite Z.pow_0_r, Z.div_1_r. reflexivity. }
  repeat (split; [apply Z.mod_pos_bound; exact H64 | ]).
  split; [ | reflexivity].
  assert (H256 : 0 <= v mod 2 ^ 256 < 2 ^ 256)
    by (apply Z.mod_pos_bound; apply Z.pow_pos_nonneg; lia).
  rewrite (quarter_words_recombine (v mod 2 ^ 256) H256) at 1.
  assert (Hq : forall k, 0 <= k -> k + 64 <= 256 ->
             ((v mod 2 ^ 256) / 2 ^ k) mod 2 ^ 64 = (v / 2 ^ k) mod 2 ^ 64).
  { intros k Hk Hk'.
    rewrite <- !Z.shiftr_div_pow2 by lia.
    rewrite <- !Z.land_ones by lia.
    apply Z.bits_inj'. intros n Hn.
    rewrite !Z.land_spec, !Z.shiftr_spec, Z.land_spec by lia.
    destruct (Z.ltb_spec n 64).
    - rewrite (Z.ones_spec_low 256 (n + k)) by lia. apply andb_assoc || idtac.
      rewrite andb_true_r. reflexivity.
    - rewrite (Z.ones_spec_high 64 n) by lia. rewrite !andb_false_r. reflexivity. }
  rewrite <- (Hq 64), <- (Hq 128), <- (Hq 192) by lia.
  replace (v mod 2 ^ 64) with ((v mod 2 ^ 256) mod 2 ^ 64).
  - reflexivity.
  - specialize (Hq 0 ltac:(lia) ltac:(lia)).
    rewrite Z.pow_0_r, !Z.div_1_r in Hq. exact Hq.
Qed.
End Further.

(** * The further properties on the concrete collaborators *)

(** X1, witness: a jump to 64 is accepted, one to 4096 is refused. *)
Lemma set_next_pc_contract_witness :
  set_next_pc 4096 sample_top = AssertionError
  /\ (exists s', set_next_pc 64 sample_top = Ok s' /\ get_next_pc s' = 64).
Proof.
  split.
  - apply (proj1 (set_next_pc_contract (E := sample_externals) 4096 sample_top)).
    vm_compute. intros (_ & _ & H). discriminate H.
  - eexists. split; [vm_compute; reflexivity | ].
    apply (proj2 (set_next_pc_contract (E := sample_externals) 64 sample_top)).
    vm_compute. reflexivity.
Defined.

(** X2, witness: a jump from 4092 to 64. *)
Lemma commit_takes_jump_witness :
  exists s1,
    set_next_pc 64 sample_top = Ok s1
    /\ pc (commit false s1) = 64
    /\ get_next_pc (commit false s1) = 68
    /\ pc (commit true s1) = 4092.
Proof.
  eexists. split; [vm_compute; reflexivity | ].
  edestruct (commit_takes_jump (E := sample_externals) 64 sample_top)
    as (H1 & H2 & H3 & _).
  - vm_compute. reflexivity.
  - vm_compute. reflexivity.
  - split; [exact H1 | split; [exact H2 | exact H3] ].
Defined.

(** X3, witness: from PC 4092 the fall-through is not valid, and a
    negative address fails the assertion. *)
Lemma fall_through_validity_witness :
  is_pc_valid (get_next_pc sample_top) sample_top = Ok false
  /\ is_pc_valid (-4) sample_top = AssertionError.
Proof.
  destruct (fall_through_validity (E := sample_externals)) as [H1 H2].
  split.
  - rewrite H2; vm_compute; try reflexivity.
    split; [discriminate | reflexivity].
  - apply H1. reflexivity.
Defined.

(** X7, witness: a stop after a software error during [EXEC]. *)
Lemma stop_next_state_witness :
  exists s',
    stop sample_failed = Ok s'
    /\ _fsm_state s' = EXEC /\ pc s' = 8 /\ _err_bits s' = 1
    /\ _next_fsm_state s' = PRE_WIPE.
Proof.
  destruct (stop sample_failed) as [s'|] eqn:Hs;
    [ | vm_compute in Hs; discriminate Hs].
  exists s'. split; [reflexivity | ].
  destruct (stop_next_state (E := sample_externals) sample_failed s' Hs)
    as (H1 & H2 & H3 & _ & H5).
  rewrite H1, H2, H3, H5. vm_compute. repeat split.
Defined.

(** X8, witness: the stop on an RMA request sets [lock_after_wipe], and
    the reason is there. *)
Lemma stop_locks_only_with_reason_witness :
  exists s',
    stop sample_rma = Ok s'
    /\ lock_after_wipe s' = true
    /\ (lock_after_wipe sample_rma = true \/ should_lock 0 false LcTx_ON = true).
Proof.
  destruct (stop sample_rma) as [s'|] eqn:Hs;
    [ | vm_compute in Hs; discriminate Hs].
  exists s'. split; [reflexivity | ].
  assert (Hl : lock_after_wipe s' = true).
  { vm_compute in Hs. injection Hs as <-. reflexivity. }
  split; [exact Hl | ].
  destruct (stop_locks_only_with_reason (E := sample_externals) sample_rma s' Hs)
    as (_ & H).
  apply H. exact Hl.
Defined.

(** X9, witness: no halt pending in the one state, one pending in the
    other. *)
Lemma stop_if_pending_halt_contract_witness :
  stop_if_pending_halt sample_exec = Ok (false, sample_exec)
  /\ (exists s',
        stop_if_pending_halt sample_failed = Ok (true, s')
        /\ pending_halt s' = false).
Proof.
  split.
  - apply (proj1 (stop_if_pending_halt_contract (E := sample_externals) sample_exec)).
    vm_compute. reflexivity.
  - destruct (stop sample_failed) as [s'|] eqn:Hs;
      [ | vm_compute in Hs; discriminate Hs].
    destruct (proj1 (proj2 (stop_if_pending_halt_contract
                              (E := sample_externals) sample_failed)) s')
      as (H1 & H2).
    + vm_compute. reflexivity.
    + exact Hs.
    + exists s'. split; [exact H1 | ]. rewrite H2. vm_compute. reflexivity.
Defined.

(** X11, witness: a memory that is unreadable stays so over two cycles. *)
Lemma invalidation_cancel_and_persist_witness :
  invalidated_imem
    (run [Step true; Commit false; Step false; Commit false] sample_invalidated)
  = true.
Proof.
  apply (proj2 (invalidation_cancel_and_persist (E := sample_externals))).
  vm_compute. reflexivity.
Defined.

(** X13, witness: a loop stack that asks for nothing. *)
Lemma loop_step_next_pc_witness :
  exists s', loop_step ∅ sample_exec = Ok s' /\ get_next_pc s' = 64.
Proof.
  eexists. split; [vm_compute; reflexivity | ].
  edestruct (loop_step_next_pc (E := sample_externals) ∅ sample_exec) as (_ & H).
  - vm_compute. reflexivity.
  - edestruct H as (_ & _ & H3).
    + vm_compute. reflexivity.
    + rewrite H3. vm_compute. reflexivity.
Defined.

(** X14, witness: the instruction at the top of the instruction memory. *)
Lemma post_insn_keeps_errors_witness :
  exists s',
    post_insn ∅ sample_top = Ok s'
    /\ pending_halt s' = true
    /\ get_reg "INSN_CNT" (ext_regs s') = mkStaged 0 (Some 1).
Proof.
  eexists. split; [vm_compute; reflexivity | ].
  edestruct (post_insn_keeps_errors (E := sample_externals) ∅ sample_top)
    as (_ & _ & H3 & H4 & _).
  - vm_compute. reflexivity.
  - split; [apply H3; vm_compute; discriminate | ].
    rewrite H4. vm_compute. reflexivity.
Defined.

(** X15, witness: the same instruction when it has asked for the halt. *)
Lemma post_insn_check_squashed_witness :
  exists mid,
    post_insn ∅ sample_ecall = Ok mid
    /\ _err_bits mid = 0 /\ pending_halt mid = true.
Proof.
  eexists. split.
  - apply (post_insn_check_squashed (E := sample_externals) ∅ sample_ecall).
    + vm_compute. reflexivity.
    + vm_compute. discriminate.
    + left. vm_compute. reflexivity.
  - vm_compute. split; reflexivity.
Defined.

(** X17, witness: the failed instruction of [sample_failed]. *)
Lemma failed_insn_leaves_no_trace_witness :
  exists s',
    stop sample_failed = Ok s'
    /\ gprs (commit false s') = mkStaged (repeat 0 32%nat) None
    /\ get_reg "INSN_CNT" (ext_regs (commit false s')) = mkStaged 0 None
    /\ committed (get_reg "ERR_BITS" (ext_regs (commit false s'))) = 1
    /\ pc (commit false s') = 12.
Proof.
  destruct (stop sample_failed) as [s'|] eqn:Hs;
    [ | vm_compute in Hs; discriminate Hs].
  exists s'. split; [reflexivity | ].
  destruct (failed_insn_leaves_no_trace (E := sample_externals) sample_failed s' false)
    as (H1 & _ & _ & _ & _ & _ & _ & H8 & H9 & H10).
  - vm_compute. discriminate.
  - vm_compute. reflexivity.
  - exact Hs.
  - rewrite H1, H8, H9, H10. vm_compute. repeat split.
Defined.

(** X18, witness: the clean stop of [sample_exec]. *)
Lemma clean_stop_commits_results_witness :
  exists s',
    stop sample_exec = Ok s'
    /\ _fsm_state (commit false s') = PRE_WIPE
    /\ gprs (commit false s') = mkStaged (repeat 7 32%nat) None
    /\ committed (get_reg "INSN_CNT" (ext_regs (commit false s'))) = 1
    /\ committed (get_reg "STOP_PC" (ext_regs (commit false s'))) = 8.
Proof.
  destruct (stop sample_exec) as [s'|] eqn:Hs;
    [ | vm_compute in Hs; discriminate Hs].
  exists s'. split; [reflexivity | ].
  destruct (clean_stop_commits_results (E := sample_externals) sample_exec s' false)
    as (H1 & H2 & _ & _ & H5 & _ & H7 & _).
  - vm_compute. reflexivity.
  - vm_compute. reflexivity.
  - vm_compute. reflexivity.
  - exact Hs.
  - rewrite H1, H2, H5, H7. vm_compute. repeat split.
Defined.

(** X19, witness: a fatal error under [lock_immediately]. *)
Lemma stop_lock_is_final_witness :
  exists s',
    stop sample_lock_now = Ok s'
    /\ committed (get_reg "STATUS" (ext_regs (commit false s'))) = 255
    /\ _fsm_state (run [Step true; Commit false] (commit false s')) = LOCKED.
Proof.
  destruct (stop sample_lock_now) as [s'|] eqn:Hs;
    [ | vm_compute in Hs; discriminate Hs].
  exists s'. split; [reflexivity | ].
  destruct (stop_lock_is_final (E := sample_externals) sample_lock_now s' false
              [Step true; Commit false])
    as (H1 & H2 & _).
  - vm_compute. reflexivity.
  - exact Hs.
  - split; [rewrite H1; reflexivity | exact H2].
Defined.

(** X20, witness: the word with quarter-words 1, 2, 3 and 4. *)
Lemma urnd_seed_words_witness :
  exists s' w0 w1 w2 w3,
    urnd_completed sample_urnd = Ok s'
    /\ pending (URND (wsrs s')) = Some [w0; w1; w2; w3]
    /\ 0 <= w0 < 2 ^ 64 /\ 0 <= w3 < 2 ^ 64.
Proof.
  eexists.
  edestruct (urnd_seed_words (E := sample_externals) sample_urnd)
    as (w0 & w1 & w2 & w3 & Hp & B0 & _ & _ & B3 & _).
  - vm_compute. reflexivity.
  - vm_compute. reflexivity.
  - exists w0, w1, w2, w3.
    split; [vm_compute; reflexivity | ].
    split; [exact Hp | split; [exact B0 | exact B3] ].
Defined.
